(** * BSM_Example: the Black-Scholes-Merton put pricer and the trainer loop

    A shallow embedding of [notebook/BSM_Example.ipynb].

    Definitions
    - [Binary64] : [ds] and [put] over IEEE binary64 values ([spec_float]),
                   as the source computes them: every operation rounds, and
                   overflow, underflow, division by zero and non-finite
                   results exist; [np.log], [np.exp] and [norm.cdf] are
                   parameters.  Also the rounding and the slices with which
                   [fit_net] splits its data.
    - [Trainer]  : [Net.forward] and [fit_net] with an explicit store: the
                   parameter tensors and the optimizer state live in heap
                   cells, are updated in place by the optimizer step, and
                   [state_dict()] returns references to them.  The torch
                   operations are parameters.
    - [TinyNet]  : one instance of those parameters, a 1-1-1 network with
                   its gradient and its Adam update in binary64.
    - [Notebook] : the constructor of [Net], the cell that reloads a
                   checkpoint, the validation split and what the loop prints.
                   [torch.nn.Linear] is a parameter that threads the state of
                   the random generator.
    - [ZeroNet]  : an instance, the dense network with all weights zero.
    - [Rounding] : the notions in which rounding to nearest is described.
    - [StepLibrary] : an instance of [np.log], [np.exp] and [norm.cdf] on
                   which [put] can be run.

    Properties
    - [Binary64Facts], [Binary64Claims] : signs of rounded results, zero
                   maturity, underflow; the train/test split.
    - [TrainerFacts], [TinyNetFacts] : the checkpoint rule of the loop, what
                   a checkpoint reads, and runs of the instance.
    - [ExpiryFacts], [AtExpiry] : the value returned at maturity 0.0.
    - [FloatOrder] : the comparison [<] of binary64 as an order.
    - [RoundingFacts], [FloatBounds] : rounding to nearest never crosses a
                   binary64 number; bounds on rounded products and
                   differences.
    - [PricerFacts] : the closed form [put] evaluates, the bounds on its
                   value and what a large volatility does to it.
    - [SplitFacts], [HeldOutFacts] : negative counts, the validation set,
                   the samples [fit_net] never reads.
    - [NotebookFacts], [ArchitectureFacts], [WidthFacts] : the layers of a
                   constructed network and its forward pass; the reload after
                   [fit_net].
    - [LoopFacts] : printed lines, the best loss as a minimum, training in
                   place, a second call.
    - [CheckpointFacts], [CheckpointRuns] : how many optimizer steps lie
                   between the best loss and the checkpoint [fit_net]
                   returns.
    - [TinyNetRuns], [ZeroNetRuns], [HeldOutRuns] : runs of the
                   instances. *)

From Stdlib Require Import Floats.
From stdpp Require Import gmap strings list.
From Stdlib Require Import ZArith Lia.

(* ===================================================================== *)
(** ** The pricer and the split arithmetic over IEEE binary64 *)
(* ===================================================================== *)

Module Binary64.

Declare Scope b64_scope.
Delimit Scope b64_scope with b64.
Infix "+" := SF64add : b64_scope.
Infix "-" := SF64sub : b64_scope.
Infix "*" := SF64mul : b64_scope.
Infix "/" := SF64div : b64_scope.
Notation "- x" := (SFopp x) : b64_scope.
Infix "<?" := SFltb : b64_scope.
Local Open Scope b64_scope.

(** Conversion of a Python [int] to a [float], rounding to nearest even. *)
Definition of_int (n : Z) : spec_float := binary_normalize prec emax n 0 false.

(** The literal [0.5]. *)
Definition half : spec_float := S754_finite false 4503599627370496 (-53).

(** The literals [0.0] and [1.0]. *)
Definition zero : spec_float := S754_zero false.
Definition one : spec_float := S754_finite false 4503599627370496 (-52).

(** [1e-200] and [1e-300], two small positive inputs. *)
Definition vol_1e_200 : spec_float := S754_finite false 6894565328877484 (-717).
Definition T_1e_300 : spec_float := S754_finite false 6032057205060441 (-1049).

(** The notebook's [pct_test = 0.2] and [pct_validation = 0.1]. *)
Definition pct_0_2 : spec_float := S754_finite false 7205759403792794 (-55).
Definition pct_0_1 : spec_float := S754_finite false 7205759403792794 (-56).

Definition is_zero (x : spec_float) : bool :=
  match x with S754_zero _ => true | _ => false end.

Definition is_nan (x : spec_float) : bool :=
  match x with S754_nan => true | _ => false end.

(** Neither an infinity nor a NaN. *)
Definition is_finite (x : spec_float) : bool :=
  match x with S754_zero _ | S754_finite _ _ _ => true | _ => false end.

(** A finite number strictly above zero. *)
Definition is_pos_finite (x : spec_float) : bool :=
  match x with S754_finite false _ _ => true | _ => false end.

(** Zero or strictly positive, plus infinity included: what a correctly
    signed result of positive operands can be. *)
Definition is_nonneg (x : spec_float) : bool :=
  match x with
  | S754_zero false | S754_finite false _ _ | S754_infinity false => true
  | _ => false
  end.

(** Zero, finite or infinite with sign [s]: not a NaN. *)
Definition signed (s : bool) (x : spec_float) : Prop :=
  match x with
  | S754_zero s' | S754_finite s' _ _ | S754_infinity s' => s' = s
  | S754_nan => False
  end.

(** Python's [/] on [float]: a zero divisor raises [ZeroDivisionError]. *)
Definition truediv (x y : spec_float) : option spec_float :=
  if is_zero y then None else Some (x / y).

Section WithNumpy.

(** [np.log], [np.exp] and [scipy.stats.norm.cdf]: library code. *)
Variables np_log np_exp norm_cdf : spec_float -> spec_float.

(** [def ds(K, S, T, vol, r, q)]; [np.sqrt] is the IEEE square root.
    [S/K] divides two Python numbers and can raise; the division by
    [vol_T], a numpy scalar, cannot: it yields an infinity or a NaN. *)
Definition ds (K S T vol r q : spec_float) : option (spec_float * spec_float) :=
  let vol_T := vol * SF64sqrt T in
  S_K ← truediv S K;
  let d1 := (np_log S_K + (r - q + half * vol * vol) * T) / vol_T in
  let d2 := d1 - vol_T in
  Some (d1, d2).

(** [def put(K, S, T, vol, r, q)] *)
Definition put (K S T vol r q : spec_float) : option spec_float :=
  let disc := np_exp (- r * T) in
  let pv_K := K * disc in
  let spot_after_div := S * np_exp (- q * T) in
  '(d1, d2) ← ds K S T vol r q;
  let v := norm_cdf (- d2) * pv_K - norm_cdf (- d1) * spot_after_div in
  Some v.

End WithNumpy.

(** The divisor of [d1] and the argument of [np.log] in [ds]. *)
Definition vol_T (vol T : spec_float) : spec_float := vol * SF64sqrt T.
Definition log_arg (S K : spec_float) : spec_float := S / K.

(** [m * 2^e] rounded to the nearest integer, ties to even ([np.round]). *)
Definition round_half_even (m : positive) (e : Z) : Z :=
  match e with
  | Zneg d =>
      let q := Z.shiftr (Zpos m) (Zpos d) in
      let r := (Zpos m - Z.shiftl q (Zpos d))%Z in
      match (2 * r ?= Z.shiftl 1 (Zpos d))%Z with
      | Lt => q
      | Gt => (q + 1)%Z
      | Eq => if Z.even q then q else (q + 1)%Z
      end
  | _ => Z.shiftl (Zpos m) e
  end.

(** [int(np.round(x))]: [int] raises on an infinity ([OverflowError]) and
    on a NaN ([ValueError]). *)
Definition int_round (x : spec_float) : option Z :=
  match x with
  | S754_zero _ => Some 0%Z
  | S754_finite s m e => Some (cond_Zopp s (round_half_even m e))
  | S754_infinity _ | S754_nan => None
  end.

(** A slice bound as Python adjusts it for a sequence of length [len]. *)
Definition slice_index (len v : Z) : Z :=
  let v := if (v <? 0)%Z then (v + len)%Z else v in
  Z.max 0 (Z.min len v).

(** [l[start:stop]] *)
Definition slice {A} (l : list A) (start stop : Z) : list A :=
  let len := Z.of_nat (length l) in
  let a := slice_index len start in
  let b := slice_index len stop in
  take (Z.to_nat (b - a)) (drop (Z.to_nat a) l).

(** The first lines of [fit_net]: sizes of the two splits. *)
Definition split_sizes (n : Z) (pct_test pct_validation : spec_float) : option (Z * Z) :=
  n_train ← int_round (of_int n * (of_int 1 - pct_test - pct_validation));
  n_test ← int_round (of_int n * pct_test);
  Some (n_train, n_test).

Record splits (A B : Type) := Splits {
  x_train : list A; x_test : list A; y_train : list B; y_test : list B
}.
Arguments Splits {A B}.
Arguments x_train {A B}.
Arguments x_test {A B}.
Arguments y_train {A B}.
Arguments y_test {A B}.

(** The first lines of [fit_net]: the four slices. *)
Definition train_test_split {A B} (x : list A) (y : list B)
    (pct_test pct_validation : spec_float) : option (splits A B) :=
  let n := Z.of_nat (length y) in
  '(n_train, n_test) ← split_sizes n pct_test pct_validation;
  Some (Splits (slice x 0 n_train) (slice x n_train (n_train + n_test))
               (slice y 0 n_train) (slice y n_train (n_train + n_test))).

End Binary64.


(* ===================================================================== *)
(** ** The network and the trainer, with an explicit store *)
(* ===================================================================== *)

Module Trainer.
Import Binary64.

(** Heap addresses of mutable torch objects. *)
Abbreviation loc := positive.

(** The literals of [fit_net]: [123.45], [1e-3] and [lr=0.01], each the
    nearest binary64 value. *)
Definition l_init : spec_float := S754_finite false 8687021468732621 (-46).
Definition floor_constant : spec_float := S754_finite false 4611686018427388 (-62).
Definition learning_rate : spec_float := S754_finite false 5764607523034235 (-59).

(** Values a checkpoint dictionary holds: an [int], or a state dict, which
    [state_dict()] returns as a reference to the live tensors, not a copy. *)
Inductive value :=
  | VInt (n : Z)
  | VStateDict (r : loc).

(** [class Net]: the two integer fields and the [ModuleList], a mutable
    object on the heap. *)
Record Net := { n_hidden : Z; n_layers : Z; linears : loc }.

(** [torch.optim.Adam]: the parameters it updates and its own state. *)
Record Optimizer := { opt_params : loc; opt_state_ref : loc }.

Section WithTorch.

(** A row of a 2-d tensor, the weight and bias of a [torch.nn.Linear], and
    the internal state of Adam (moments, step counts, hyper-parameters). *)
Context {vec layer adam_state : Type}.

(** [torch.nn.Linear.__call__] and [F.relu] on a batch. *)
Variable linear : layer -> list vec -> list vec.
Variable relu : list vec -> list vec.
(** [torch.nn.MSELoss()(prediction, y)] read back as a Python [float]. *)
Variable mse_loss : list vec -> list vec -> spec_float.
(** [torch.optim.Adam(params, lr)]: the state of a new optimizer. *)
Variable adam_init : spec_float -> adam_state.
(** [optimizer.zero_grad(); loss.backward(); optimizer.step()] for the loss
    of the network on the batch [(x, y)]: the new parameter values and the
    new optimizer state. *)
Variable backward_step :
  list layer -> adam_state -> list vec -> list vec -> list layer * adam_state.

(** Contents of a heap cell. *)
Inductive obj :=
  | Linears (ws : list layer)
  | AdamState (o : adam_state).

Definition read_linears (h : gmap loc obj) (r : loc) : option (list layer) :=
  match h !! r with Some (Linears ws) => Some ws | _ => None end.

Definition read_adam (h : gmap loc obj) (r : loc) : option adam_state :=
  match h !! r with Some (AdamState o) => Some o | _ => None end.

(** [Net.forward] on the current weights: [linears[-1]] raises on an empty
    list. *)
Definition forward (ws : list layer) (x : list vec) : option (list vec) :=
  let x := foldl (fun x lin => relu (linear lin x)) x (removelast ws) in
  lin ← last ws;
  Some (linear lin x).

(** [net(x)] *)
Definition call_net (h : gmap loc obj) (net : Net) (x : list vec) : option (list vec) :=
  ws ← read_linears h (linears net);
  forward ws x.

(** [optimizer.zero_grad(); loss.backward(); optimizer.step()]: both the
    parameters and the optimizer state are updated in place. *)
Definition optimizer_step (h : gmap loc obj) (opt : Optimizer)
    (x y : list vec) : option (gmap loc obj) :=
  ws ← read_linears h (opt_params opt);
  o ← read_adam h (opt_state_ref opt);
  let '(ws', o') := backward_step ws o x y in
  Some (<[opt_state_ref opt := AdamState o']> (<[opt_params opt := Linears ws']> h)).

(** Local variables of the loop of [fit_net], the heap, and what was
    printed. *)
Record loop_state := LoopState {
  heap : gmap loc obj;
  l : spec_float;
  best_l : spec_float;
  checkpoint : gmap string value;
  stdout : list (Z * spec_float)
}.

(** The dictionary built on improvement. *)
Definition new_checkpoint (net : Net) (opt : Optimizer) : gmap string value :=
  <["optimizer_state_dict" := VStateDict (opt_state_ref opt)]>
  (<["model_state_dict" := VStateDict (linears net)]>
  (<["n_layers" := VInt (n_layers net)]>
  (<["n_hidden" := VInt (n_hidden net)]> ∅))).

(** One iteration of [for e in range(n_epochs)]. *)
Definition epoch (net : Net) (opt : Optimizer) (x_ y_ x_test_ y_test_ : list vec)
    (e : Z) (st : loop_state) : option loop_state :=
  prediction ← call_net (heap st) net x_;
  let loss := mse_loss prediction y_ in
  prediction_test ← call_net (heap st) net x_test_;
  let loss_test := mse_loss prediction_test y_test_ in
  h ← optimizer_step (heap st) opt x_ y_;
  let l := loss_test in
  let '(best_l, checkpoint) :=
    if (l <? best_l st)%b64 then (l, new_checkpoint net opt)
    else (best_l st, checkpoint st) in
  let stdout :=
    if ((e + 1) mod 100 =? 0)%Z then stdout st ++ [((e + 1)%Z, loss)]
    else stdout st in
  Some (LoopState h l best_l checkpoint stdout).

(** The loop over [range(n)] started at epoch [e]. *)
Fixpoint epochs (net : Net) (opt : Optimizer) (x_ y_ x_test_ y_test_ : list vec)
    (n : nat) (e : Z) (st : loop_state) : option loop_state :=
  match n with
  | O => Some st
  | S n =>
      st' ← epoch net opt x_ y_ x_test_ y_test_ e st;
      epochs net opt x_ y_ x_test_ y_test_ n (e + 1)%Z st'
  end.

(** [optimizer = torch.optim.Adam(net.parameters(), lr=0.01)]: the new
    optimizer refers to the parameters of [net]; its state is a new object. *)
Definition new_optimizer (h : gmap loc obj) (net : Net) : Optimizer :=
  {| opt_params := linears net; opt_state_ref := fresh (dom h) |}.

(** The state in which the loop is entered: [l = 123.45], [best_l = 1e-3],
    [checkpoint = {}]. *)
Definition initial_state (h : gmap loc obj) (net : Net) : loop_state :=
  let optimizer := new_optimizer h net in
  LoopState (<[opt_state_ref optimizer := AdamState (adam_init learning_rate)]> h)
            l_init floor_constant ∅ [].

(** [def fit_net(net, n_epochs, x, y, pct_test, pct_validation, device)].
    The device only places tensors and is left out.  The result carries the
    final heap next to the returned pair [(best_l, checkpoint)]. *)
Definition fit_net (h : gmap loc obj) (net : Net) (n_epochs : Z) (x y : list vec)
    (pct_test pct_validation : spec_float)
    : option (gmap loc obj * (spec_float * gmap string value)) :=
  s ← train_test_split x y pct_test pct_validation;
  let optimizer := new_optimizer h net in
  st ← epochs net optimizer (x_train s) (y_train s) (x_test s) (y_test s)
        (Z.to_nat n_epochs) 0 (initial_state h net);
  Some (heap st, (best_l st, checkpoint st)).

(** [model.load_state_dict(checkpoint['model_state_dict'])]: the values the
    new network receives; a missing key raises [KeyError]. *)
Definition load_state_dict (h : gmap loc obj) (ckpt : gmap string value)
    : option (list layer) :=
  v ← ckpt !! "model_state_dict";
  match v with
  | VStateDict r => read_linears h r
  | VInt _ => None
  end.

(** [optimizer.load_state_dict]-style read of the stored optimizer state. *)
Definition stored_optimizer_state (h : gmap loc obj) (ckpt : gmap string value)
    : option adam_state :=
  v ← ckpt !! "optimizer_state_dict";
  match v with
  | VStateDict r => read_adam h r
  | VInt _ => None
  end.

(** What the in-place updates compute: weights and optimizer state after
    [k] steps on the training split. *)
Fixpoint trajectory (x_ y_ : list vec) (k : nat) (ws : list layer) (o : adam_state)
    : list layer * adam_state :=
  match k with
  | O => (ws, o)
  | S k => let '(ws', o') := trajectory x_ y_ k ws o in backward_step ws' o' x_ y_
  end.

(** The prediction of the network with weights [ws] ([[]] where
    [forward] raises). *)
Definition predict (ws : list layer) (x : list vec) : list vec :=
  default [] (forward ws x).

(** Test losses of [n] successive epochs started from [ws] and [o]. *)
Fixpoint losses (x_ y_ x_test_ y_test_ : list vec)
    (n : nat) (ws : list layer) (o : adam_state) : list spec_float :=
  match n with
  | O => []
  | S n =>
      mse_loss (predict ws x_test_) y_test_
      :: losses x_ y_ x_test_ y_test_ n
           (backward_step ws o x_ y_).1 (backward_step ws o x_ y_).2
  end.

(** The test loss seen by epoch [k]: that of the weights after [k] steps. *)
Definition test_loss_at (x_ y_ x_test_ y_test_ : list vec)
    (k : nat) (ws : list layer) (o : adam_state) : spec_float :=
  mse_loss (predict (trajectory x_ y_ k ws o).1 x_test_) y_test_.

(** The state of the heap the loop relies on: the network's weights and
    the optimizer's state are where [net] and [opt] say. *)
Definition holds (net : Net) (opt : Optimizer) (h : gmap loc obj)
    (ws : list layer) (o : adam_state) : Prop :=
  h !! linears net = Some (Linears ws) /\ h !! opt_state_ref opt = Some (AdamState o).

End WithTorch.

(** The running best loss and whether a checkpoint was recorded, over a
    list of test losses. *)
Fixpoint best_scan (b : spec_float) (recorded : bool) (ls : list spec_float)
    : spec_float * bool :=
  match ls with
  | [] => (b, recorded)
  | l :: ls => if (l <? b)%b64 then best_scan l true ls else best_scan b recorded ls
  end.

Arguments obj : clear implicits.
Arguments loop_state : clear implicits.

End Trainer.

(** A one-feature, one-neuron, one-hidden-layer network with its gradient
    and Adam update written out in binary64: an instance of the torch
    operations on which [fit_net] can be run. *)
Module TinyNet.
Import Binary64 Trainer.
Local Open Scope b64_scope.

(** Weight and bias of a [torch.nn.Linear(1, 1)]. *)
Definition layer : Type := spec_float * spec_float.

Definition linear (lin : layer) (x : list spec_float) : list spec_float :=
  map (fun xi => xi * lin.1 + lin.2) x.

Definition relu1 (z : spec_float) : spec_float := if z <? zero then zero else z.

Definition relu (x : list spec_float) : list spec_float := map relu1 x.

Definition sum (x : list spec_float) : spec_float := foldl SF64add zero x.

(** Mean of the squared differences. *)
Definition mse_loss (p y : list spec_float) : spec_float :=
  sum (zip_with (fun pi yi => (pi - yi) * (pi - yi)) p y)
  / of_int (Z.of_nat (length p)).

(** Adam's state: learning rate, step count, first and second moment of
    each of the four parameters. *)
Record adam_state := AdamOf {
  lr : spec_float; step_count : Z; moments : list (spec_float * spec_float)
}.

Definition adam_init (lr : spec_float) : adam_state :=
  AdamOf lr 0 (replicate 4 (zero, zero)).

(** [0.9], [0.999] and [1e-8], the defaults of [torch.optim.Adam]. *)
Definition beta1 : spec_float := S754_finite false 8106479329266893 (-53).
Definition beta2 : spec_float := S754_finite false 8998192055486251 (-53).
Definition eps : spec_float := S754_finite false 6044629098073146 (-79).

Fixpoint pow (b : spec_float) (n : nat) : spec_float :=
  match n with O => of_int 1 | S n => b * pow b n end.

(** The update of one parameter [p] with gradient [g] at step [t]. *)
Definition adam_update (lr : spec_float) (t : Z) (p g : spec_float)
    (mv : spec_float * spec_float) : spec_float * (spec_float * spec_float) :=
  let m := beta1 * mv.1 + (of_int 1 - beta1) * g in
  let v := beta2 * mv.2 + (of_int 1 - beta2) * g * g in
  let bc1 := of_int 1 - pow beta1 (Z.to_nat t) in
  let bc2 := of_int 1 - pow beta2 (Z.to_nat t) in
  let denom := SF64sqrt v / SF64sqrt bc2 + eps in
  (p - lr / bc1 * (m / denom), (m, v)).

(** Gradient of the mean squared error of [w1 * relu (w0 * x + b0) + b1]
    with respect to [(w0, b0, w1, b1)]. *)
Definition gradient (l0 l1 : layer) (x y : list spec_float) : list spec_float :=
  let n := of_int (Z.of_nat (length x)) in
  let per_sample xi yi :=
    let z := xi * l0.1 + l0.2 in
    let h := relu1 z in
    let p := h * l1.1 + l1.2 in
    let g_p := of_int 2 * (p - yi) / n in
    let g_z := if zero <? z then g_p * l1.1 else zero in
    [g_z * xi; g_z; g_p * h; g_p] in
  foldl (zip_with SF64add) (replicate 4 zero) (zip_with per_sample x y).

(** [zero_grad(); loss.backward(); step()] for the two-layer network; any
    other shape is left as it is. *)
Definition backward_step (ws : list layer) (o : adam_state)
    (x y : list spec_float) : list layer * adam_state :=
  match ws with
  | [l0; l1] =>
      let t := (step_count o + 1)%Z in
      let ps := [l0.1; l0.2; l1.1; l1.2] in
      let new := zip_with (fun pg mv => adam_update (lr o) t pg.1 pg.2 mv)
                   (zip ps (gradient l0 l1 x y)) (moments o) in
      match new.*1 with
      | [w0; b0; w1; b1] => ([(w0, b0); (w1, b1)], AdamOf (lr o) t new.*2)
      | _ => (ws, o)
      end
  | _ => (ws, o)
  end.

Definition two : spec_float := of_int 2.
Definition three : spec_float := of_int 3.

(** The network [Net(1, 1, 1, 1)] with both layers set to weight 1 and
    bias 0, at address 1 of the heap. *)
Definition net : Net := {| n_hidden := 1; n_layers := 1; linears := 1%positive |}.
Definition h0 : gmap loc (obj layer adam_state) :=
  {[ 1%positive := Linears [(one, zero); (one, zero)] ]}.

(** The same network at another address, in a heap that also holds an
    unrelated optimizer. *)
Definition net_elsewhere : Net :=
  {| n_hidden := 1; n_layers := 1; linears := 7%positive |}.
Definition h0_elsewhere : gmap loc (obj layer adam_state) :=
  <[7%positive := Linears [(one, zero); (one, zero)]]>
    (<[1%positive := AdamState (adam_init one)]> ∅).

(** Two samples: [(1, 2)] goes to the training split, [(3, 3)] to the test
    split. *)
Definition x : list spec_float := [one; three].
Definition y : list spec_float := [two; three].

(** [fit_net(net, n_epochs, x, y, 0.5, 0.0)] *)
Definition run (n_epochs : Z) :=
  fit_net linear relu mse_loss adam_init backward_step h0 net n_epochs x y half zero.

(** What [load_state_dict] reads from the checkpoint held in a loop state
    or in a result of [fit_net], and the test loss of the network so
    loaded, on the test split [(3, 3)]. *)
Definition stored_weights (st : loop_state layer adam_state) : option (list layer) :=
  load_state_dict (heap st) (checkpoint st).

Definition stored_adam (st : loop_state layer adam_state) : option adam_state :=
  stored_optimizer_state (heap st) (checkpoint st).

Definition reloaded_test_loss
    (r : gmap loc (obj layer adam_state) * (spec_float * gmap string value))
    : option spec_float :=
  ws ← load_state_dict r.1 r.2.2;
  p ← forward linear relu ws [three];
  Some (mse_loss p [three]).

(** The loop of that call after [k] epochs. *)
Definition after (k : nat) : option (loop_state layer adam_state) :=
  epochs linear relu mse_loss backward_step net (new_optimizer h0 net)
    [one] [two] [three] [three] k 0 (initial_state adam_init h0 net).

End TinyNet.

(** The cells of the notebook around [fit_net]: the constructor of [Net],
    the reload of a checkpoint and the validation split. *)
Module Notebook.
Import Binary64 Trainer.

(** [range(start, stop)] *)
Definition range (start stop : Z) : list Z :=
  (fun i => (start + Z.of_nat i)%Z) <$> seq 0 (Z.to_nat (stop - start)).

(** [l[start:]] *)
Definition slice_from {A} (l : list A) (start : Z) : list A :=
  drop (Z.to_nat (slice_index (Z.of_nat (length l)) start)) l.

(** The cell that cuts the validation set: the samples from
    [int(np.round(n * (1 - pct_validation)))] on. *)
Definition validation_split {A B} (samples_t : list A) (values_t : list B)
    (pct_validation : spec_float) : option (list A * list B) :=
  let n := Z.of_nat (length values_t) in
  ind_validation ← int_round (of_int n * (of_int 1 - pct_validation))%b64;
  Some (slice_from samples_t ind_validation, slice_from values_t ind_validation).

(** The sizes [(in_features, out_features)] of the layers of
    [Net(n_feature, n_hidden, n_layers, n_output)], first to last. *)
Definition layer_sizes (n_feature n_hidden n_layers n_output : Z) : list (Z * Z) :=
  [(n_feature, n_hidden)]
  ++ replicate (Z.to_nat (n_layers - 1)) (n_hidden, n_hidden)
  ++ [(n_hidden, n_output)].

Definition as_int (v : value) : option Z :=
  match v with VInt n => Some n | VStateDict _ => None end.

Section WithTorch.

(** The state of torch's random generator, besides the types of
    [Trainer]. *)
Context {layer adam_state rng : Type}.

(** [torch.nn.Linear(in_features, out_features)]: draws the initial weights;
    raises on sizes it does not accept. *)
Variable Linear : Z -> Z -> rng -> option (layer * rng).
(** [(in_features, out_features)] of a layer. *)
Variable shape : layer -> Z * Z.

(** [[torch.nn.Linear(n_hidden, n_hidden) for i in indices]] *)
Fixpoint hidden_linears (n_hidden : Z) (indices : list Z) (g : rng)
    : option (list layer * rng) :=
  match indices with
  | [] => Some ([], g)
  | _ :: indices =>
      '(lin, g) ← Linear n_hidden n_hidden g;
      '(lins, g) ← hidden_linears n_hidden indices g;
      Some (lin :: lins, g)
  end.

(** [Net.__init__]: the [ModuleList] is a new object of the heap. *)
Definition Net_init (h : gmap loc (obj layer adam_state)) (g : rng)
    (n_feature n_hidden n_layers n_output : Z)
    : option (gmap loc (obj layer adam_state) * rng * Net) :=
  '(first, g) ← Linear n_feature n_hidden g;
  '(hidden, g) ← hidden_linears n_hidden (range 1 n_layers) g;
  '(last, g) ← Linear n_hidden n_output g;
  let self_linears := fresh (dom h) in
  Some (<[self_linears := Linears ([first] ++ hidden ++ [last])]> h, g,
        {| n_hidden := n_hidden; n_layers := n_layers; linears := self_linears |}).

(** The cell that rebuilds the model:
    [model = Net(5, checkpoint["n_hidden"], checkpoint["n_layers"], 1)] and
    [model.load_state_dict(checkpoint['model_state_dict'])].  A missing key
    raises [KeyError]; [load_state_dict] raises unless the stored layers
    match the model's own in number and sizes, and copies the stored values
    into the model's parameters. *)
Definition reload (h : gmap loc (obj layer adam_state)) (g : rng)
    (checkpoint : gmap string value)
    : option (gmap loc (obj layer adam_state) * rng * Net) :=
  n_hidden ← checkpoint !! "n_hidden" ≫= as_int;
  n_layers ← checkpoint !! "n_layers" ≫= as_int;
  '(h, g, model) ← Net_init h g 5 n_hidden n_layers 1;
  state_dict ← load_state_dict h checkpoint;
  own ← read_linears h (linears model);
  if bool_decide (shape <$> state_dict = shape <$> own)
  then Some (<[linears model := Linears state_dict]> h, g, model)
  else None.

End WithTorch.

Section WithTorchLoop.
Context {vec layer adam_state : Type}.
Variable linear : layer -> list vec -> list vec.
Variable relu : list vec -> list vec.
Variable mse_loss : list vec -> list vec -> spec_float.
Variable backward_step :
  list layer -> adam_state -> list vec -> list vec -> list layer * adam_state.

(** The training loss epoch [k] computes: that of the weights after [k]
    steps. *)
Definition train_loss_at (x_ y_ : list vec) (k : nat) (ws : list layer)
    (o : adam_state) : spec_float :=
  mse_loss (predict linear relu (trajectory backward_step x_ y_ k ws o).1 x_) y_.

(** The lines [n] epochs print: the epoch number and the training loss,
    every 100 epochs. *)
Definition printed (x_ y_ : list vec) (n : nat) (ws : list layer) (o : adam_state)
    : list (Z * spec_float) :=
  (fun j => ((100 * Z.of_nat j)%Z, train_loss_at x_ y_ (100 * j - 1) ws o))
    <$> seq 1 (n / 100).

End WithTorchLoop.

End Notebook.

(** A dense network whose weights and biases are all zero: a layer is then
    given by its two sizes and puts out rows of zeros.  On targets 0.0 the
    loss of such a network is 0.0 and its gradient is zero, so an optimizer
    step leaves the parameters as they are. *)
Module ZeroNet.
Import Binary64 Trainer Notebook.

(** A row of a batch. *)
Definition row : Type := list spec_float.
Definition width (v : row) : Z := Z.of_nat (length v).

Definition zero_layer : Type := Z * Z.
Definition zero_Linear (i o : Z) (g : unit) : option (zero_layer * unit) :=
  Some ((i, o), g).
Definition sizes (lin : zero_layer) : Z * Z := lin.
Definition zero_linear (lin : zero_layer) (x : list row) : list row :=
  (fun _ => replicate (Z.to_nat lin.2) zero) <$> x.
Definition relu_rows (x : list row) : list row := map (map TinyNet.relu1) x.
Definition mse_rows (p y : list row) : spec_float :=
  TinyNet.mse_loss (concat p) (concat y).
Definition no_state (lr : spec_float) : unit := tt.
Definition zero_step (ws : list zero_layer) (o : unit) (x y : list row)
    : list zero_layer * unit := (ws, o).

(** [Net(5, 3, 2, 1)] built in the empty heap. *)
Definition built := Net_init (adam_state := unit) zero_Linear ∅ tt 5 3 2 1.

(** Two samples of five features, with targets 0.0. *)
Definition samples : list row := [replicate 5 one; replicate 5 TinyNet.three].
Definition targets : list row := [[zero]; [zero]].

End ZeroNet.

(* ===================================================================== *)
(** ** Notions for binary64 rounding, and a library instance *)
(* ===================================================================== *)

Module Rounding.
Local Open Scope Z_scope.






End Rounding.

(** Three step functions in the place of [np.log], [np.exp] and [norm.cdf],
    on which [put] can be evaluated.  They are exact on zeros, infinities
    and NaN, keep the sign and the range of the function they stand for,
    and are constant in between. *)
Module StepLibrary.
Import Binary64.
Local Open Scope b64_scope.

(** [1.0000000000000002], the binary64 number next above [1.0]. *)
Definition spot_above_one : spec_float := S754_finite false 4503599627370497 (-52).

(** The volatilities [1e-16] and [1e200]. *)
Definition vol_1e_minus_16 : spec_float := S754_finite false 8112963841460668 (-106).
Definition vol_1e_plus_200 : spec_float := S754_finite false 5883593420661338 612.

(** [2.2204460492503128e-16] and [-0.6931471805599453], the logarithms of
    [1.0000000000000002] and of [0.5]. *)
Definition log_above_one : spec_float := S754_finite false 9007199254740991 (-105).
Definition log_below_one : spec_float := S754_finite true 6243314768165359 (-53).

(** [0.013194252048977523] and [0.9868057479510225], the standard normal
    distribution function at [-2.220446049250313] and at
    [2.220446049250313]. *)
Definition cdf_low : spec_float := S754_finite false 7605968462234570 (-59).
Definition cdf_high : spec_float := S754_finite false 8888355997518577 (-53).

Definition log_step (x : spec_float) : spec_float :=
  match x with
  | S754_nan | S754_infinity true | S754_finite true _ _ => S754_nan
  | S754_zero _ => S754_infinity true
  | S754_infinity false => S754_infinity false
  | S754_finite false _ _ =>
      if x <? one then log_below_one else if one <? x then log_above_one else zero
  end.

Definition exp_step (x : spec_float) : spec_float :=
  match x with
  | S754_nan => S754_nan
  | S754_zero _ => one
  | S754_infinity false => S754_infinity false
  | S754_infinity true => zero
  | S754_finite true _ _ => half
  | S754_finite false _ _ => of_int 2
  end.

Definition cdf_step (x : spec_float) : spec_float :=
  match x with
  | S754_nan => S754_nan
  | S754_zero _ => half
  | S754_infinity false => one
  | S754_infinity true => zero
  | S754_finite true _ _ => cdf_low
  | S754_finite false _ _ => cdf_high
  end.

End StepLibrary.


(* ===================================================================== *)
(** ** Properties of the pricer, the split and the trainer *)
(* ===================================================================== *)

Module Binary64Facts.
Import Binary64.
Local Open Scope Z_scope.

(** *** Signs of correctly rounded results *)

Lemma shr_1_nonneg mrs : 0 <= shr_m mrs -> 0 <= shr_m (shr_1 mrs).
Proof.
  destruct mrs as [m r s]. simpl. intros H.
  destruct m as [| p | p]; [done | destruct p; simpl; lia | lia].
Qed.

Lemma iter_shr_1_nonneg p : forall mrs,
  0 <= shr_m mrs -> 0 <= shr_m (SpecFloat.iter_pos shr_1 p mrs).
Proof.
  induction p as [p IH | p IH |]; intros mrs H; simpl.
  - apply IH, IH, shr_1_nonneg, H.
  - apply IH, IH, H.
  - apply shr_1_nonneg, H.
Qed.

Lemma shr_fexp_nonneg m e l :
  0 <= m -> 0 <= shr_m (shr_fexp prec emax m e l).1.
Proof.
  intros H. unfold shr_fexp, shr.
  assert (H0 : 0 <= shr_m (shr_record_of_loc m l)) by (by destruct l as [| []]).
  destruct (fexp prec emax (Zdigits2 m + e) - e); simpl; [done | | done].
  by apply iter_shr_1_nonneg.
Qed.

Lemma round_nearest_even_nonneg m l : 0 <= m -> 0 <= round_nearest_even m l.
Proof.
  intros H. destruct l as [| []]; simpl; try lia. destruct (Z.even m); lia.
Qed.

Lemma binary_round_aux_signed s m e l :
  0 <= m -> signed s (binary_round_aux prec emax s m e l).
Proof.
  intros H. unfold binary_round_aux.
  pose proof (shr_fexp_nonneg m e l H) as H1.
  destruct (shr_fexp prec emax m e l) as [mrs' e']. simpl in H1.
  pose proof (shr_fexp_nonneg _ e' loc_Exact
                (round_nearest_even_nonneg _ (loc_of_shr_record mrs') H1)) as H2.
  destruct (shr_fexp prec emax (round_nearest_even _ _) e' loc_Exact) as [mrs'' e''].
  simpl in H2. destruct (shr_m mrs'') as [| p | p]; simpl; [done | | lia].
  by destruct (e'' <=? emax - prec).
Qed.

Lemma signed_nonneg x : signed false x <-> is_nonneg x = true.
Proof. destruct x as [[] | [] | | [] ? ?]; simpl; split; congruence || done. Qed.

Lemma sqrt_pos_finite x : is_pos_finite x = true -> is_nonneg (SF64sqrt x) = true.
Proof.
  destruct x as [| | | [] m e]; try done. intros _.
  apply signed_nonneg. unfold SF64sqrt, SFsqrt.
  destruct (SFsqrt_core_binary prec emax (Z.pos m) e) as [[mz ez] lz] eqn:E.
  apply binary_round_aux_signed.
  unfold SFsqrt_core_binary in E.
  set (m' := match e - 2 * _ with Z.pos _ => _ | 0 => _ | Z.neg _ => _ end) in E.
  assert (Hm' : 0 <= m').
  { unfold m'. destruct (e - 2 * _); [lia | | lia]. by apply Z.shiftl_nonneg. }
  pose proof (Z.sqrtrem_spec m' Hm') as Hs.
  destruct (Z.sqrtrem m') as [q r]. inversion E; subst. lia.
Qed.

Lemma div_pos_finite x y :
  is_pos_finite x = true -> is_pos_finite y = true -> is_nonneg (SF64div x y) = true.
Proof.
  destruct x as [| | | [] mx ex]; try done. destruct y as [| | | [] my ey]; try done.
  intros _ _. apply signed_nonneg. unfold SF64div, SFdiv.
  destruct (SFdiv_core_binary prec emax (Z.pos mx) ex (Z.pos my) ey)
    as [[mz ez] lz] eqn:E.
  apply (binary_round_aux_signed (xorb false false)).
  unfold SFdiv_core_binary in E.
  set (m' := match _ - _ - _ with Z.pos _ => _ | 0 => _ | Z.neg _ => _ end) in E.
  assert (Hm' : 0 <= m').
  { unfold m'. destruct (_ - _ - _); [lia | | lia]. by apply Z.shiftl_nonneg. }
  pose proof (Z.div_pos m' (Z.pos my) Hm' ltac:(lia)) as Hq.
  unfold Z.div in Hq. destruct (Z.div_eucl m' (Z.pos my)) as [q r].
  inversion E; subst. exact Hq.
Qed.

Lemma mul_pos_finite_nonneg x y :
  is_pos_finite x = true -> is_nonneg y = true -> is_nonneg (SF64mul x y) = true.
Proof.
  destruct x as [| | | [] mx ex]; try done.
  destruct y as [[] | [] | | [] my ey]; try done. intros _ _.
  apply signed_nonneg. unfold SF64mul, SFmul.
  apply (binary_round_aux_signed (xorb false false)). lia.
Qed.

(** *** Zero maturity *)

Lemma mul_by_zero x y :
  is_zero y = true -> is_zero (SF64mul x y) = true \/ SF64mul x y = S754_nan.
Proof. destruct y; try done. destruct x; simpl; auto. Qed.

Lemma div_by_zero_or_nan x y :
  is_zero y = true \/ y = S754_nan -> is_finite (SF64div x y) = false.
Proof.
  intros [H | ->]; [destruct y; try done; by destruct x | by destruct x].
Qed.

Lemma sub_zero_or_nan x y :
  is_finite x = false -> is_zero y = true \/ y = S754_nan ->
  is_finite (SF64sub x y) = false.
Proof.
  intros Hx [H | ->]; [| by destruct x].
  destruct y; try done. by destruct x as [| [] | |].
Qed.

Lemma sqrt_zero x : is_zero x = true -> is_zero (SF64sqrt x) = true.
Proof. by destruct x. Qed.

End Binary64Facts.

Module Binary64Claims.
Import Binary64 Binary64Facts.

(** The constants written as [spec_float] are the binary64 values of the
    decimal literals of the source. *)
Example constants_check :
  Prim2SF 0x1.87e92154ef7acp-665 = vol_1e_200
  /\ Prim2SF 0x1.56e1fc2f8f359p-997 = T_1e_300
  /\ Prim2SF 0x1p+0 = one /\ of_int 1 = one
  /\ Prim2SF 0x1p-1 = half
  /\ Prim2SF 0x1.999999999999ap-3 = pct_0_2
  /\ Prim2SF 0x1.999999999999ap-4 = pct_0_1
  /\ Prim2SF 0x1.edccccccccccdp+6 = Trainer.l_init
  /\ Prim2SF 0x1.0624dd2f1a9fcp-10 = Trainer.floor_constant
  /\ Prim2SF 0x1.47ae147ae147bp-7 = Trainer.learning_rate
  /\ Prim2SF 0x1.ccccccccccccdp-1 = TinyNet.beta1
  /\ Prim2SF 0x1.ff7ced916872bp-1 = TinyNet.beta2
  /\ Prim2SF 0x1.5798ee2308c3ap-27 = TinyNet.eps.
Proof. vm_compute. repeat split. Qed.

(** The notebook's own split: 100000 samples, 0.2 and 0.1. *)
Example notebook_split_sizes :
  split_sizes 100000 pct_0_2 pct_0_1 = Some (70000, 20000)%Z.
Proof. by vm_compute. Qed.

Example round_ties_to_even :
  int_round (of_int 5 * half)%b64 = Some 2%Z
  /\ int_round (of_int 7 * half)%b64 = Some 4%Z
  /\ int_round (S754_infinity false) = None.
Proof. by vm_compute. Qed.

Example slice_examples :
  slice [1; 2; 3; 4; 5] (-2) 10 = [4; 5]
  /\ slice [1; 2; 3; 4; 5] 0 (-1) = [1; 2; 3; 4]
  /\ slice [1; 2; 3; 4; 5] 3 2 = [].
Proof. by vm_compute. Qed.

(** [ds] spelled with its divisor and its logarithm argument named. *)
Lemma ds_unfold np_log K S T vol r q :
  ds np_log K S T vol r q
  = if is_zero K then None
    else let d1 := ((np_log (log_arg S K)
                     + (r - q + half * vol * vol) * T) / vol_T vol T)%b64 in
         Some (d1, (d1 - vol_T vol T)%b64).
Proof. unfold ds, truediv, log_arg, vol_T. by destruct (is_zero K). Qed.

(** C9, as stated, fails: with the positive inputs vol = 1e-200 and
    T = 1e-300 the product [vol * sqrt T] underflows to zero, so [ds]
    divides by zero. *)
Lemma ds_divides_by_zero_on_underflow :
  ~ (forall K S T vol : spec_float,
       (zero <? K)%b64 = true -> (zero <? S)%b64 = true ->
       (zero <? T)%b64 = true -> (zero <? vol)%b64 = true ->
       is_zero (vol_T vol T) = false /\ (zero <? log_arg S K)%b64 = true).
Proof.
  intros H.
  destruct (H one one T_1e_300 vol_1e_200) as [Hz _]; try reflexivity.
  vm_compute in Hz. discriminate.
Qed.

(** C9, amended.  For finite strike > 0 and spot > 0, [ds] and [put] raise
    no error; the argument of the logarithm and, for finite maturity > 0 and
    volatility > 0, the divisor of [d1] are never negative and never NaN:
    they are positive unless the binary64 quotient or product underflows to
    +0.  For maturity = 0 both [d1] and [d2] are non-finite and [ds] returns
    them as they are; a NaN [d1] makes [put] return NaN when [norm.cdf]
    propagates NaN. *)
Theorem ds_put_on_positive_inputs
    (np_log np_exp norm_cdf : spec_float -> spec_float)
    (K S T vol r q : spec_float) :
  is_pos_finite K = true -> is_pos_finite S = true ->
  (exists d1 d2 v,
      ds np_log K S T vol r q = Some (d1, d2)
      /\ d1 = ((np_log (log_arg S K)
                + (r - q + half * vol * vol) * T) / vol_T vol T)%b64
      /\ d2 = (d1 - vol_T vol T)%b64
      /\ put np_log np_exp norm_cdf K S T vol r q = Some v
      /\ (is_zero T = true -> is_finite d1 = false /\ is_finite d2 = false)
      /\ (is_nan d1 = true -> norm_cdf S754_nan = S754_nan -> v = S754_nan))
  /\ is_nonneg (log_arg S K) = true
  /\ (is_pos_finite T = true -> is_pos_finite vol = true ->
      is_nonneg (vol_T vol T) = true).
Proof.
  intros HK HS.
  assert (HK0 : is_zero K = false) by (by destruct K).
  split; [| split].
  - pose proof (ds_unfold np_log K S T vol r q) as Hds.
    rewrite HK0 in Hds. cbv zeta in Hds.
    eexists _, _, _. split; [exact Hds |]. split; [reflexivity |].
    split; [reflexivity |]. split.
    { unfold put. rewrite Hds. reflexivity. }
    split.
    + intros HT.
      assert (Hv : is_zero (vol_T vol T) = true \/ vol_T vol T = S754_nan)
        by (apply mul_by_zero, sqrt_zero, HT).
      pose proof (div_by_zero_or_nan
        (np_log (log_arg S K) + (r - q + half * vol * vol) * T)%b64 _ Hv) as Hd1.
      split; [exact Hd1 |]. by apply sub_zero_or_nan.
    + intros Hnan Hcdf.
      destruct (_ / vol_T vol T)%b64; try done. simpl. by rewrite Hcdf.
  - apply div_pos_finite; assumption.
  - intros HT Hvol. apply mul_pos_finite_nonneg; [exact Hvol |].
    apply sqrt_pos_finite, HT.
Qed.

Lemma ds_put_on_positive_inputs_witness :
  is_pos_finite one = true /\
  (exists d1 d2 v,
      ds (fun x => x) one one one half zero zero = Some (d1, d2)
      /\ d1 = (((fun x => x) (log_arg one one)
                + (zero - zero + half * half * half) * one) / vol_T half one)%b64
      /\ d2 = (d1 - vol_T half one)%b64
      /\ put (fun x => x) (fun x => x) (fun x => x) one one one half zero zero = Some v
      /\ (is_zero one = true -> is_finite d1 = false /\ is_finite d2 = false)
      /\ (is_nan d1 = true -> (fun x => x) S754_nan = S754_nan -> v = S754_nan))
  /\ is_nonneg (log_arg one one) = true
  /\ (is_pos_finite one = true -> is_pos_finite half = true ->
      is_nonneg (vol_T half one) = true).
Proof.
  split; [reflexivity |].
  apply (ds_put_on_positive_inputs (fun x => x) (fun x => x) (fun x => x)
           one one one half zero zero); reflexivity.
Defined.

(** *** The train/test split *)

Lemma slice_index_nonneg (len v : Z) :
  (0 <= len)%Z -> (0 <= v)%Z -> slice_index len v = Z.min len v.
Proof.
  intros Hl Hv. unfold slice_index.
  destruct (v <? 0)%Z eqn:E; lia.
Qed.

Lemma slice_window {A} (l : list A) (a b : Z) :
  (0 <= a)%Z -> (0 <= b)%Z ->
  slice l a (a + b) = take (Z.to_nat b) (drop (Z.to_nat a) l).
Proof.
  intros Ha Hb. unfold slice.
  rewrite !slice_index_nonneg by lia.
  set (len := Z.of_nat (length l)).
  destruct (Z.le_ge_cases a len) as [H | H].
  - rewrite (Z.min_r len a) by lia.
    destruct (Z.le_ge_cases (a + b) len) as [H' | H'].
    + rewrite Z.min_r by lia. f_equal. lia.
    + rewrite Z.min_l by lia.
      rewrite !take_ge; [done | | ]; rewrite length_drop; unfold len in *; lia.
  - rewrite (Z.min_l len a), Z.min_l by lia.
    rewrite !drop_ge by (unfold len in *; lia). by rewrite !take_nil.
Qed.

Lemma slice_prefix {A} (l : list A) (n : Z) :
  (0 <= n)%Z -> slice l 0 n = take (Z.to_nat n) l.
Proof. intros Hn. by rewrite <- (Z.add_0_l n) at 1; rewrite slice_window. Qed.

(** C5, as stated, fails: for 3 samples, pct_test = 0.5 and
    pct_validation = 0.0 both counts round 1.5 to 2, and the test split
    holds the one remaining sample, not 2. *)
Lemma split_sizes_overshoot :
  ~ (forall (x : list nat) (y : list nat) pct_test pct_validation s n_train n_test,
       length x = length y ->
       SFleb zero pct_test = true -> SFleb zero pct_validation = true ->
       SFleb (pct_test + pct_validation)%b64 one = true ->
       split_sizes (Z.of_nat (length y)) pct_test pct_validation
         = Some (n_train, n_test) ->
       train_test_split x y pct_test pct_validation = Some s ->
       Z.of_nat (length (x_train s)) = n_train
       /\ Z.of_nat (length (x_test s)) = n_test).
Proof.
  intros H.
  destruct (H [1; 2; 3] [10; 20; 30] half zero
              (Splits [1; 2] [3] [10; 20] [30]) 2%Z 2%Z) as [_ Ht];
    [reflexivity | by vm_compute | by vm_compute | by vm_compute
     | by vm_compute | by vm_compute |].
  discriminate.
Qed.

(** C5, amended.  With n_train = round(n * (1 - pct_test - pct_validation))
    and n_test = round(n * pct_test) as the code computes them, and provided
    both are non-negative and n_train + n_test <= n: the training split is
    the first n_train samples, the test split the next n_test samples; the
    two are contiguous and do not overlap, and the n - n_train - n_test
    trailing samples are in neither. *)
Theorem split_by_position {A B} (x : list A) (y : list B)
    (pct_test pct_validation : spec_float) (n_train n_test : Z) :
  let n := Z.of_nat (length y) in
  length x = length y ->
  int_round (of_int n * (of_int 1 - pct_test - pct_validation))%b64 = Some n_train ->
  int_round (of_int n * pct_test)%b64 = Some n_test ->
  (0 <= n_train)%Z -> (0 <= n_test)%Z -> (n_train + n_test <= n)%Z ->
  exists s,
    train_test_split x y pct_test pct_validation = Some s
    /\ x_train s = take (Z.to_nat n_train) x
    /\ x_test s = take (Z.to_nat n_test) (drop (Z.to_nat n_train) x)
    /\ y_train s = take (Z.to_nat n_train) y
    /\ y_test s = take (Z.to_nat n_test) (drop (Z.to_nat n_train) y)
    /\ Z.of_nat (length (x_train s)) = n_train
    /\ Z.of_nat (length (x_test s)) = n_test
    /\ x = x_train s ++ x_test s ++ drop (Z.to_nat (n_train + n_test)) x
    /\ Z.of_nat (length (drop (Z.to_nat (n_train + n_test)) x))
       = (n - n_train - n_test)%Z.
Proof.
  intros n Hxy Htr Hte H0 H1 H2.
  eexists. split.
  { unfold train_test_split, split_sizes. fold n. rewrite Htr, Hte. reflexivity. }
  simpl. rewrite !slice_prefix, !slice_window by lia.
  repeat split.
  - rewrite length_take. unfold n in *. lia.
  - rewrite length_take, length_drop. unfold n in *. lia.
  - rewrite Z2Nat.inj_add by lia. rewrite <- drop_drop.
    by rewrite !take_drop.
  - rewrite length_drop. unfold n in *. lia.
Qed.

Lemma split_by_position_witness :
  length (seq 1 10) = length (seq 1 10)
  /\ int_round (of_int 10 * (of_int 1 - pct_0_2 - pct_0_1))%b64 = Some 7%Z
  /\ int_round (of_int 10 * pct_0_2)%b64 = Some 2%Z
  /\ exists s,
       train_test_split (seq 1 10) (seq 1 10) pct_0_2 pct_0_1 = Some s
       /\ x_train s = [1; 2; 3; 4; 5; 6; 7]
       /\ x_test s = [8; 9]
       /\ Z.of_nat (length (drop (Z.to_nat (7 + 2)) (seq 1 10))) = (10 - 7 - 2)%Z.
Proof.
  split; [reflexivity |]. split; [by vm_compute |]. split; [by vm_compute |].
  destruct (split_by_position (seq 1 10) (seq 1 10) pct_0_2 pct_0_1 7 2)
    as (s & Hs & Hx & Ht & _ & _ & _ & _ & _ & Hr);
    [reflexivity | by vm_compute | by vm_compute | lia | lia | simpl; lia |].
  exists s. split; [exact Hs |]. split; [exact Hx |]. split; [exact Ht | exact Hr].
Defined.

End Binary64Claims.

Module TrainerFacts.
Import Binary64 Trainer.

Lemma best_scan_recorded b ls : (best_scan b true ls).2 = true.
Proof.
  revert b. induction ls as [| l ls IH]; intros b; simpl; [done |].
  destruct (l <? b)%b64; apply IH.
Qed.

Lemma best_scan_value b r r' ls : (best_scan b r ls).1 = (best_scan b r' ls).1.
Proof.
  revert b r r'. induction ls as [| l ls IH]; intros b r r'; simpl; [done |].
  destruct (l <? b)%b64; [done | apply IH].
Qed.

Lemma best_scan_never b ls :
  (best_scan b false ls).2 = false <-> Forall (fun l => (l <? b)%b64 = false) ls.
Proof.
  revert b. induction ls as [| l ls IH]; intros b; simpl.
  - split; [constructor | done].
  - destruct (l <? b)%b64 eqn:E.
    + rewrite best_scan_recorded. split; [done |].
      intros H. inversion H; congruence.
    + rewrite IH. split.
      * intros H. by constructor.
      * intros H. by inversion H.
Qed.

Lemma best_scan_never_best b ls :
  Forall (fun l => (l <? b)%b64 = false) ls -> best_scan b false ls = (b, false).
Proof.
  induction 1 as [| l ls E _ IH]; simpl; [done |]. by rewrite E.
Qed.

Section WithTorch.

Context {vec layer adam_state : Type}.
Variable linear : layer -> list vec -> list vec.
Variable relu : list vec -> list vec.
Variable mse_loss : list vec -> list vec -> spec_float.
Variable adam_init : spec_float -> adam_state.
Variable backward_step :
  list layer -> adam_state -> list vec -> list vec -> list layer * adam_state.

(** An in-place update keeps the number of layers. *)
Hypothesis shape_kept :
  forall ws o x y, length (backward_step ws o x y).1 = length ws.

Local Abbreviation predict := (Trainer.predict linear relu).
Local Abbreviation losses := (Trainer.losses linear relu mse_loss backward_step).
Local Abbreviation test_loss_at :=
  (Trainer.test_loss_at linear relu mse_loss backward_step).

Section Loop.

Variables x_ y_ x_test_ y_test_ : list vec.

Lemma forward_nonempty ws x :
  ws <> [] -> forward linear relu ws x = Some (predict ws x).
Proof.
  intros Hne. unfold Trainer.predict, forward.
  destruct (last ws) as [lin |] eqn:E; [done |].
  apply last_None in E. done.
Qed.

Lemma step_nonempty ws o x y : ws <> [] -> (backward_step ws o x y).1 <> [].
Proof.
  intros Hne Hnil. apply (f_equal length) in Hnil.
  rewrite shape_kept in Hnil. by destruct ws.
Qed.

Lemma trajectory_shift k ws o :
  trajectory backward_step x_ y_ (S k) ws o
  = trajectory backward_step x_ y_ k
      (backward_step ws o x_ y_).1 (backward_step ws o x_ y_).2.
Proof.
  induction k as [| k IH].
  - simpl. by destruct (backward_step ws o x_ y_).
  - change (trajectory backward_step x_ y_ (S (S k)) ws o)
      with (let '(ws', o') := trajectory backward_step x_ y_ (S k) ws o in
            backward_step ws' o' x_ y_).
    rewrite IH. reflexivity.
Qed.

Lemma losses_lookup n : forall k ws o,
  (k < n)%nat -> losses x_ y_ x_test_ y_test_ n ws o !! k = Some (test_loss_at x_ y_ x_test_ y_test_ k ws o).
Proof.
  induction n as [| n IH]; intros k ws o Hk; [lia |].
  destruct k as [| k]; [done |].
  simpl. rewrite IH by lia. unfold Trainer.test_loss_at. by rewrite trajectory_shift.
Qed.

Lemma losses_length n : forall ws o, length (losses x_ y_ x_test_ y_test_ n ws o) = n.
Proof. induction n as [| n IH]; intros ws o; simpl; [done | by rewrite IH]. Qed.

Lemma losses_Forall (P : spec_float -> Prop) n ws o :
  Forall P (losses x_ y_ x_test_ y_test_ n ws o) <-> forall k, (k < n)%nat -> P (test_loss_at x_ y_ x_test_ y_test_ k ws o).
Proof.
  rewrite Forall_lookup. split.
  - intros H k Hk. apply (H k). by apply losses_lookup.
  - intros H k l Hl.
    assert (Hk : (k < n)%nat).
    { apply lookup_lt_Some in Hl. by rewrite losses_length in Hl. }
    rewrite losses_lookup in Hl by done. inversion Hl. by apply H.
Qed.

Lemma trajectory_nonempty k ws o :
  ws <> [] -> (trajectory backward_step x_ y_ k ws o).1 <> [].
Proof.
  intros Hne. induction k as [| k IH]; [done |].
  simpl. destruct (trajectory backward_step x_ y_ k ws o) as [ws' o'].
  by apply step_nonempty.
Qed.

Variables (net : Net) (opt : Optimizer).

Lemma epochs_S n e st :
  epochs linear relu mse_loss backward_step net opt x_ y_ x_test_ y_test_ (S n) e st
  = epoch linear relu mse_loss backward_step net opt x_ y_ x_test_ y_test_ e st
    ≫= epochs linear relu mse_loss backward_step net opt x_ y_ x_test_ y_test_
         n (e + 1)%Z.
Proof. reflexivity. Qed.

Lemma epochs_snoc n : forall e st,
  epochs linear relu mse_loss backward_step net opt x_ y_ x_test_ y_test_ (S n) e st
  = epochs linear relu mse_loss backward_step net opt x_ y_ x_test_ y_test_ n e st
    ≫= epoch linear relu mse_loss backward_step net opt x_ y_ x_test_ y_test_
         (e + Z.of_nat n)%Z.
Proof.
  induction n as [| n IH]; intros e st.
  - rewrite epochs_S. cbn [epochs mbind option_bind]. rewrite Z.add_0_r.
    by destruct (epoch _ _ _ _ _ _ _ _ _ _ e st).
  - rewrite (epochs_S (S n)), (epochs_S n).
    destruct (epoch _ _ _ _ _ _ _ _ _ _ e st) as [st1 |]; [| done].
    cbn [mbind option_bind]. rewrite IH. by replace (e + 1 + Z.of_nat n)%Z with (e + Z.of_nat (S n))%Z by lia.
Qed.

Hypothesis opt_of_net : opt_params opt = linears net.
Hypothesis opt_fresh : opt_state_ref opt <> linears net.

Lemma epoch_spec e st ws o :
  holds net opt (heap st) ws o -> ws <> [] ->
  exists st',
    epoch linear relu mse_loss backward_step net opt x_ y_ x_test_ y_test_ e st = Some st'
    /\ holds net opt (heap st') (backward_step ws o x_ y_).1 (backward_step ws o x_ y_).2
    /\ (forall r, r <> linears net -> r <> opt_state_ref opt ->
                  heap st' !! r = heap st !! r)
    /\ l st' = mse_loss (predict ws x_test_) y_test_
    /\ (best_l st', checkpoint st')
       = (if (l st' <? best_l st)%b64 then (l st', new_checkpoint net opt)
          else (best_l st, checkpoint st)).
Proof.
  intros [Hw Ho] Hne.
  unfold epoch, call_net, optimizer_step, read_linears, read_adam.
  rewrite opt_of_net, Hw, Ho. simpl.
  rewrite !forward_nonempty by done. simpl.
  destruct (backward_step ws o x_ y_) as [ws' o'] eqn:Hstep. simpl.
  destruct (mse_loss (predict ws x_test_) y_test_ <? best_l st)%b64 eqn:Hlt;
    eexists; (split; [reflexivity |]); simpl; rewrite ?Hlt;
    (split; [split; [by rewrite lookup_insert_ne, lookup_insert_eq
                    | by rewrite lookup_insert_eq] |]);
    (split; [by intros r H1 H2; rewrite !lookup_insert_ne | done]).
Qed.

Lemma epochs_spec n : forall e st ws o,
  holds net opt (heap st) ws o -> ws <> [] ->
  exists st',
    epochs linear relu mse_loss backward_step net opt x_ y_ x_test_ y_test_ n e st
      = Some st'
    /\ holds net opt (heap st') (trajectory backward_step x_ y_ n ws o).1
                        (trajectory backward_step x_ y_ n ws o).2
    /\ (forall r, r <> linears net -> r <> opt_state_ref opt ->
                  heap st' !! r = heap st !! r)
    /\ best_l st' = (best_scan (best_l st) false (losses x_ y_ x_test_ y_test_ n ws o)).1
    /\ checkpoint st'
       = if (best_scan (best_l st) false (losses x_ y_ x_test_ y_test_ n ws o)).2
         then new_checkpoint net opt else checkpoint st.
Proof.
  induction n as [| n IH]; intros e st ws o Hh Hne.
  - exists st. simpl. done.
  - destruct (epoch_spec e st ws o Hh Hne) as (st1 & Hrun & Hh1 & Hfr1 & Hl & Hbc).
    destruct (IH (e + 1)%Z st1 _ _ Hh1 (step_nonempty ws o x_ y_ Hne))
      as (st' & Hrun' & Hh' & Hfr' & Hb & Hc).
    exists st'. rewrite trajectory_shift. simpl epochs. rewrite Hrun. simpl mbind.
    split; [exact Hrun' |]. split; [done |].
    split; [intros r H1 H2; rewrite Hfr' by done; by rewrite Hfr1 |].
    simpl Trainer.losses. simpl best_scan. rewrite <- Hl.
    destruct (l st1 <? best_l st)%b64 eqn:Hlt; inversion Hbc as [[Hb1 Hc1]];
      rewrite Hb, Hc, Hb1, ?Hc1.
    + split; [apply best_scan_value |].
      rewrite best_scan_recorded.
      by destruct (snd (best_scan (l st1) false _)).
    + done.
Qed.

(** Epoch [k] of a run: the loss it compares is computed from the weights
    that [k] steps produced, the weights it leaves are those of [k + 1]
    steps. *)
Lemma epoch_of_run k st0 ws o :
  holds net opt (heap st0) ws o -> ws <> [] ->
  exists st st',
    epochs linear relu mse_loss backward_step net opt x_ y_ x_test_ y_test_ k 0 st0
      = Some st
    /\ epoch linear relu mse_loss backward_step net opt x_ y_ x_test_ y_test_
         (Z.of_nat k) st = Some st'
    /\ epochs linear relu mse_loss backward_step net opt x_ y_ x_test_ y_test_
         (S k) 0 st0 = Some st'
    /\ holds net opt (heap st) (trajectory backward_step x_ y_ k ws o).1
                       (trajectory backward_step x_ y_ k ws o).2
    /\ holds net opt (heap st') (trajectory backward_step x_ y_ (S k) ws o).1
                        (trajectory backward_step x_ y_ (S k) ws o).2
    /\ l st' = test_loss_at x_ y_ x_test_ y_test_ k ws o
    /\ (best_l st', checkpoint st')
       = (if (l st' <? best_l st)%b64 then (l st', new_checkpoint net opt)
          else (best_l st, checkpoint st)).
Proof.
  intros Hh Hne.
  destruct (epochs_spec k 0%Z st0 ws o Hh Hne) as (st & Hrun & Hst & _).
  destruct (epoch_spec (Z.of_nat k) st _ _ Hst (trajectory_nonempty k ws o Hne))
    as (st' & Hep & Hst' & _ & Hl & Hbc).
  exists st, st'. split; [done |]. split; [done |].
  split; [by rewrite epochs_snoc, Hrun |]. split; [done |].
  split; [| done].
  simpl trajectory. by destruct (trajectory backward_step x_ y_ k ws o).
Qed.

End Loop.

Lemma new_checkpoint_nonempty (net : Net) (opt : Optimizer) :
  new_checkpoint net opt <> ∅.
Proof. unfold new_checkpoint. apply insert_non_empty. Qed.

Lemma new_checkpoint_loads (h : gmap loc (obj layer adam_state))
    (net : Net) (opt : Optimizer) :
  load_state_dict h (new_checkpoint net opt) = read_linears h (linears net)
  /\ stored_optimizer_state h (new_checkpoint net opt)
     = read_adam h (opt_state_ref opt).
Proof. done. Qed.

(** [fit_net] returns, and what it returns. *)
Lemma fit_net_spec h net n_epochs x y pct_test pct_validation s ws0 :
  train_test_split x y pct_test pct_validation = Some s ->
  h !! linears net = Some (Linears ws0) -> ws0 <> [] ->
  let opt := new_optimizer h net in
  let n := Z.to_nat n_epochs in
  let o0 := adam_init learning_rate in
  let ls := losses (x_train s) (y_train s) (x_test s) (y_test s) n ws0 o0 in
  let final := trajectory backward_step (x_train s) (y_train s) n ws0 o0 in
  exists h',
    fit_net linear relu mse_loss adam_init backward_step
      h net n_epochs x y pct_test pct_validation
    = Some (h', ((best_scan floor_constant false ls).1,
                 if (best_scan floor_constant false ls).2
                 then new_checkpoint net opt else ∅))
    /\ h' !! linears net = Some (Linears final.1)
    /\ h' !! opt_state_ref opt = Some (AdamState final.2).
Proof.
  intros Hs Hw Hne opt n o0 ls final.
  assert (Hfresh : opt_state_ref opt <> linears net).
  { intros E. apply (is_fresh (dom h)). simpl in E. rewrite E. by apply elem_of_dom. }
  destruct (epochs_spec (x_train s) (y_train s) (x_test s) (y_test s) net opt
              eq_refl Hfresh n 0%Z (initial_state adam_init h net) ws0 o0)
    as (st & Hrun & [H1 H2] & _ & Hb & Hc).
  { split; simpl; [by rewrite lookup_insert_ne | by rewrite lookup_insert_eq]. }
  { done. }
  exists (heap st). unfold fit_net. rewrite Hs. simpl.
  fold opt n. rewrite Hrun. simpl. rewrite Hb, Hc. done.
Qed.

Lemma initial_state_holds (h : gmap loc (obj layer adam_state)) net ws0 :
  h !! linears net = Some (Linears ws0) ->
  opt_state_ref (new_optimizer h net) <> linears net
  /\ holds net (new_optimizer h net) (heap (initial_state adam_init h net))
       ws0 (adam_init learning_rate).
Proof.
  intros Hw.
  assert (Hfresh : opt_state_ref (new_optimizer h net) <> linears net).
  { intros E. apply (is_fresh (dom h)). simpl in E. rewrite E. by apply elem_of_dom. }
  split; [done |].
  split; simpl; [by rewrite lookup_insert_ne | by rewrite lookup_insert_eq].
Qed.

(** C4. [fit_net] starts from the threshold 1e-3, not from +infinity; an
    epoch records a checkpoint if and only if its test loss is strictly
    below the best value so far; so a run in which no epoch's test loss is
    strictly below 1e-3 returns the empty dictionary (and 1e-3). *)
Theorem fit_net_checkpoint_floor h net n_epochs x y pct_test pct_validation s ws0 :
  train_test_split x y pct_test pct_validation = Some s ->
  h !! linears net = Some (Linears ws0) -> ws0 <> [] ->
  let opt := new_optimizer h net in
  let loss_at k :=
    test_loss_at (x_train s) (y_train s) (x_test s) (y_test s)
      k ws0 (adam_init learning_rate) in
  let never_below :=
    forall k, (k < Z.to_nat n_epochs)%nat ->
              (loss_at k <? floor_constant)%b64 = false in
  best_l (initial_state adam_init h net) = floor_constant
  /\ checkpoint (initial_state adam_init h net) = ∅
  /\ is_finite floor_constant = true
  /\ (forall e st st',
        epoch linear relu mse_loss backward_step net opt
          (x_train s) (y_train s) (x_test s) (y_test s) e st = Some st' ->
        exists p,
          call_net linear relu (heap st) net (x_test s) = Some p
          /\ l st' = mse_loss p (y_test s)
          /\ (best_l st', checkpoint st')
             = (if (l st' <? best_l st)%b64 then (l st', new_checkpoint net opt)
                else (best_l st, checkpoint st)))
  /\ (forall k, (k < Z.to_nat n_epochs)%nat ->
        exists st st',
          epochs linear relu mse_loss backward_step net opt
            (x_train s) (y_train s) (x_test s) (y_test s) k 0
            (initial_state adam_init h net) = Some st
          /\ epoch linear relu mse_loss backward_step net opt
               (x_train s) (y_train s) (x_test s) (y_test s) (Z.of_nat k) st
             = Some st'
          /\ l st' = loss_at k)
  /\ exists h' best ckpt,
       fit_net linear relu mse_loss adam_init backward_step
         h net n_epochs x y pct_test pct_validation = Some (h', (best, ckpt))
       /\ (ckpt = ∅ <-> never_below)
       /\ (never_below -> best = floor_constant).
Proof.
  intros Hs Hw Hne opt loss_at never_below.
  split; [done |]. split; [done |]. split; [done |]. split; [| split].
  - intros e st st' Hep. unfold epoch in Hep.
    destruct (call_net linear relu (heap st) net (x_train s)) as [p_ |]; [| done].
    destruct (call_net linear relu (heap st) net (x_test s)) as [p |]; [| done].
    simpl in Hep.
    destruct (optimizer_step backward_step (heap st) opt (x_train s) (y_train s))
      as [h1 |]; [| done].
    simpl in Hep. exists p. split; [done |].
    destruct (mse_loss p (y_test s) <? best_l st)%b64 eqn:Hlt;
      inversion Hep; subst; simpl; by rewrite Hlt.
  - intros k Hk.
    destruct (initial_state_holds h net ws0 Hw) as [Hfresh Hh].
    destruct (epoch_of_run (x_train s) (y_train s) (x_test s) (y_test s) net opt
                eq_refl Hfresh k _ ws0 _ Hh Hne)
      as (st & st' & H1 & H2 & _ & _ & _ & H3 & _).
    by exists st, st'.
  - destruct (fit_net_spec h net n_epochs x y pct_test pct_validation s ws0 Hs Hw Hne)
      as (h' & Hrun & _).
    eexists _, _, _. split; [exact Hrun |].
    assert (Hiff : (best_scan floor_constant false
                      (losses (x_train s) (y_train s) (x_test s) (y_test s)
                         (Z.to_nat n_epochs) ws0 (adam_init learning_rate))).2 = false
                   <-> never_below).
    { rewrite best_scan_never. apply losses_Forall. }
    split; [split |].
    + intros Hc. apply Hiff.
      destruct (best_scan _ _ _).2; [| done].
      by apply new_checkpoint_nonempty in Hc.
    + intros Hn. apply Hiff in Hn. by rewrite Hn.
    + intros Hn. rewrite best_scan_never_best; [done |].
      by apply losses_Forall.
Qed.

(** X14.  What the returned checkpoint reads when [fit_net] returns: the
    weights and optimizer state after the last step, whichever epoch
    recorded it. *)
Lemma returned_checkpoint_reads_final h net n_epochs x y pct_test pct_validation s ws0 :
  train_test_split x y pct_test pct_validation = Some s ->
  h !! linears net = Some (Linears ws0) -> ws0 <> [] ->
  let final := trajectory backward_step (x_train s) (y_train s)
                 (Z.to_nat n_epochs) ws0 (adam_init learning_rate) in
  exists h' best ckpt,
    fit_net linear relu mse_loss adam_init backward_step
      h net n_epochs x y pct_test pct_validation = Some (h', (best, ckpt))
    /\ (ckpt <> ∅ ->
        load_state_dict h' ckpt = Some final.1
        /\ stored_optimizer_state h' ckpt = Some final.2).
Proof.
  intros Hs Hw Hne final.
  destruct (fit_net_spec h net n_epochs x y pct_test pct_validation s ws0 Hs Hw Hne)
    as (h' & Hrun & H1 & H2).
  eexists _, _, _. split; [exact Hrun |].
  destruct (best_scan _ _ _).2; [| done]. intros _.
  destruct (new_checkpoint_loads h' net (new_optimizer h net)) as [-> ->].
  unfold read_linears, read_adam. by rewrite H1, H2.
Qed.

(** X18.  What [fit_net] returns does not depend on where the parameters of
    the network live in the heap, nor on what else the heap holds: two
    calls on networks that hold the same initial parameters, with the same
    features, labels, fractions and epoch count, return the same best loss
    and checkpoints that load the same parameters and the same optimizer
    state, both empty or neither. *)
Theorem fit_net_independent_of_heap h1 h2 net1 net2 n_epochs x y
    pct_test pct_validation s ws0 :
  train_test_split x y pct_test pct_validation = Some s ->
  h1 !! linears net1 = Some (Linears ws0) ->
  h2 !! linears net2 = Some (Linears ws0) ->
  ws0 <> [] ->
  exists h1' h2' best ckpt1 ckpt2,
    fit_net linear relu mse_loss adam_init backward_step
      h1 net1 n_epochs x y pct_test pct_validation = Some (h1', (best, ckpt1))
    /\ fit_net linear relu mse_loss adam_init backward_step
         h2 net2 n_epochs x y pct_test pct_validation = Some (h2', (best, ckpt2))
    /\ load_state_dict h1' ckpt1 = load_state_dict h2' ckpt2
    /\ stored_optimizer_state h1' ckpt1 = stored_optimizer_state h2' ckpt2
    /\ (ckpt1 = ∅ <-> ckpt2 = ∅).
Proof.
  intros Hs Hw1 Hw2 Hne.
  destruct (fit_net_spec h1 net1 n_epochs x y pct_test pct_validation s ws0 Hs Hw1 Hne)
    as (h1' & Hrun1 & Ha1 & Hb1).
  destruct (fit_net_spec h2 net2 n_epochs x y pct_test pct_validation s ws0 Hs Hw2 Hne)
    as (h2' & Hrun2 & Ha2 & Hb2).
  eexists _, _, _, _, _. split; [exact Hrun1 |]. split; [exact Hrun2 |].
  destruct (best_scan _ _ _).2.
  - destruct (new_checkpoint_loads h1' net1 (new_optimizer h1 net1)) as [-> ->].
    destruct (new_checkpoint_loads h2' net2 (new_optimizer h2 net2)) as [-> ->].
    unfold read_linears, read_adam. rewrite Ha1, Ha2, Hb1, Hb2.
    split; [done |]. split; [done |].
    split; intros H; by apply new_checkpoint_nonempty in H.
  - done.
Qed.

End WithTorch.
End TrainerFacts.

Module TinyNetFacts.
Import Binary64 Trainer TrainerFacts TinyNet.

Lemma tiny_shape_kept ws o x y : length (backward_step ws o x y).1 = length ws.
Proof.
  unfold backward_step.
  destruct ws as [| l0 [| l1 [| l2 ws]]]; try done.
  destruct (_.*1) as [| w0 [| b0 [| w1 [| b1 [| ? ?]]]]]; done.
Qed.

Example tiny_split :
  train_test_split x y half zero = Some (Splits [one] [three] [two] [three]).
Proof. by vm_compute. Qed.

(** C3, on the code: the checkpoint recorded at epoch 0 of the two-epoch
    run is the one returned, yet the weights and the optimizer state that
    it reads are not those it read at the end of epoch 0: the step of
    epoch 1 changed them in place. *)
Theorem checkpoint_altered_by_later_step :
  checkpoint <$> after 1 = Some (new_checkpoint net (new_optimizer h0 net))
  /\ checkpoint <$> after 2 = checkpoint <$> after 1
  /\ run 2 = (fun st => (heap st, (best_l st, checkpoint st))) <$> after 2
  /\ after 1 ≫= stored_weights
     = Some [(S754_finite false 4548635623419021 (-52),
              S754_finite false 5764607494211197 (-59));
             (S754_finite false 4548635623419021 (-52),
              S754_finite false 5764607494211197 (-59))]
  /\ after 2 ≫= stored_weights
     = Some [(S754_finite false 4593629705762319 (-52),
              S754_finite false 5761925017076690 (-58));
             (S754_finite false 4593644166228993 (-52),
              S754_finite false 5760919775237908 (-58))]
  /\ after 1 ≫= stored_weights <> after 2 ≫= stored_weights
  /\ after 1 ≫= stored_adam <> after 2 ≫= stored_adam.
Proof.
  assert (E1 : after 1 ≫= stored_weights
               = Some [(S754_finite false 4548635623419021 (-52),
                        S754_finite false 5764607494211197 (-59));
                       (S754_finite false 4548635623419021 (-52),
                        S754_finite false 5764607494211197 (-59))])
    by (vm_compute; reflexivity).
  assert (E2 : after 2 ≫= stored_weights
               = Some [(S754_finite false 4593629705762319 (-52),
                        S754_finite false 5761925017076690 (-58));
                       (S754_finite false 4593644166228993 (-52),
                        S754_finite false 5760919775237908 (-58))])
    by (vm_compute; reflexivity).
  split; [vm_compute; reflexivity |].
  split; [vm_compute; reflexivity |].
  split; [vm_compute; reflexivity |].
  split; [exact E1 |]. split; [exact E2 |].
  split; [rewrite E1, E2; discriminate |].
  intros H; vm_compute in H; discriminate H.
Qed.

(** C2, on the code: the two-epoch run returns the best test loss 0.0,
    below 1e-3, while the network loaded from the returned checkpoint has
    the test loss 0.0261 (to three digits), above 1e-3. *)
Theorem reloaded_loss_differs_from_best :
  (fun r => r.2.1) <$> run 2 = Some zero
  /\ (zero <? floor_constant)%b64 = true
  /\ run 2 ≫= reloaded_test_loss = Some (S754_finite false 7520532632083309 (-58))
  /\ (floor_constant <? S754_finite false 7520532632083309 (-58))%b64 = true.
Proof. repeat split; vm_compute; reflexivity. Qed.

Lemma fit_net_checkpoint_floor_witness :
  (forall ws o x y, length (backward_step ws o x y).1 = length ws)
  /\ train_test_split x y half zero = Some (Splits [one] [three] [two] [three])
  /\ h0 !! linears net = Some (Linears [(one, zero); (one, zero)])
  /\ exists h' best ckpt,
       run 2 = Some (h', (best, ckpt))
       /\ (ckpt = ∅ <->
           forall k, (k < Z.to_nat 2)%nat ->
             (test_loss_at linear relu mse_loss backward_step
                [one] [two] [three] [three] k [(one, zero); (one, zero)]
                (adam_init learning_rate) <? floor_constant)%b64 = false).
Proof.
  split; [exact tiny_shape_kept |]. split; [exact tiny_split |].
  split; [reflexivity |].
  destruct (fit_net_checkpoint_floor linear relu mse_loss adam_init backward_step
              tiny_shape_kept h0 net 2 x y half zero
              (Splits [one] [three] [two] [three]) [(one, zero); (one, zero)]
              tiny_split eq_refl ltac:(discriminate))
    as (_ & _ & _ & _ & _ & h' & best & ckpt & Hrun & Hiff & _).
  exists h', best, ckpt. split; [exact Hrun | exact Hiff].
Defined.

Lemma fit_net_independent_of_heap_witness :
  (forall ws o x y, length (backward_step ws o x y).1 = length ws)
  /\ train_test_split x y half zero = Some (Splits [one] [three] [two] [three])
  /\ h0 !! linears net = Some (Linears [(one, zero); (one, zero)])
  /\ h0_elsewhere !! linears net_elsewhere = Some (Linears [(one, zero); (one, zero)])
  /\ exists h1' h2' best ckpt1 ckpt2,
       run 2 = Some (h1', (best, ckpt1))
       /\ fit_net linear relu mse_loss adam_init backward_step
            h0_elsewhere net_elsewhere 2 x y half zero
          = Some (h2', (best, ckpt2))
       /\ load_state_dict h1' ckpt1 = load_state_dict h2' ckpt2.
Proof.
  assert (He : h0_elsewhere !! linears net_elsewhere
               = Some (Linears [(one, zero); (one, zero)]))
    by (vm_compute; reflexivity).
  split; [exact tiny_shape_kept |]. split; [exact tiny_split |].
  split; [reflexivity |]. split; [exact He |].
  destruct (fit_net_independent_of_heap linear relu mse_loss adam_init backward_step
              tiny_shape_kept h0 h0_elsewhere net net_elsewhere 2 x y half zero
              (Splits [one] [three] [two] [three]) [(one, zero); (one, zero)]
              tiny_split eq_refl He ltac:(discriminate))
    as (h1' & h2' & best & ckpt1 & ckpt2 & H1 & H2 & H3 & _).
  exists h1', h2', best, ckpt1, ckpt2.
  split; [exact H1 |]. split; [exact H2 | exact H3].
Defined.

End TinyNetFacts.


(* ===================================================================== *)
(** ** Further properties of the pricer, the split and the trainer *)
(* ===================================================================== *)

Module ExpiryFacts.
Import Binary64 Binary64Facts Binary64Claims.
Local Open Scope Z_scope.

Lemma mul_one_finite s m e :
  SpecFloat.bounded prec emax m e = true ->
  SF64mul (S754_finite s m e) one = S754_finite s m e.
Proof.
  unfold SpecFloat.bounded, canonical_mantissa. intros Hb.
  apply andb_prop in Hb as [Hc He]. apply Z.eqb_eq in Hc.
  unfold SF64mul, SFmul, one, binary_round_aux, shr_fexp.
  rewrite xorb_false_r.
  assert (Hd : Zdigits2 (Z.pos (m * 4503599627370496)) = Z.pos (digits2_pos m) + 52).
  { rewrite Pos.mul_comm. simpl. rewrite Pos.mul_1_l, !Pos2Z.inj_succ. lia. }
  rewrite Hd.
  replace (Z.pos (digits2_pos m) + 52 + (e + -52)) with (Z.pos (digits2_pos m) + e) by lia.
  rewrite Hc. replace (e - (e + -52)) with 52 by lia.
  rewrite Pos.mul_comm. set (M := (4503599627370496 * m)%positive). cbv in M. subst M.
  cbv [shr shr_record_of_loc SpecFloat.iter_pos shr_1 orb].
  cbn [shr_m loc_of_shr_record round_nearest_even].
  replace (e + -52 + 52) with e by lia.
  cbn [Zdigits2]. rewrite Hc, Z.sub_diag. cbn [shr shr_record_of_loc shr_m].
  by rewrite He.
Qed.

Lemma mul_one_r x : valid_binary x = true -> SF64mul x one = x.
Proof.
  destruct x as [s | s | | s m e]; try done.
  - by destruct s.
  - by destruct s.
  - apply mul_one_finite.
Qed.

Lemma mul_one_l x : valid_binary x = true -> SF64mul one x = x.
Proof.
  destruct x as [s | s | | s m e]; try done.
  intros Hb. transitivity (SF64mul (S754_finite s m e) one); [| by apply mul_one_finite].
  unfold SF64mul, SFmul, one.
  by rewrite (Pos.mul_comm _ m), (Z.add_comm _ e), xorb_false_l, xorb_false_r.
Qed.


Local Open Scope b64_scope.

(** A finite number times a zero is a zero. *)
Lemma mul_zero_r x :
  is_finite x = true -> exists b, (x * zero)%b64 = S754_zero b.
Proof. destruct x as [s | s | | s m e]; try done; intros _; by eexists. Qed.

Lemma opp_finite x : is_finite x = true -> is_finite (- x)%b64 = true.
Proof. by destruct x. Qed.

(** Adding a zero to a number that is below zero, or above, changes
    nothing. *)
Lemma add_zero_r x b :
  is_zero x = false -> is_nan x = false -> (x + S754_zero b)%b64 = x.
Proof. by destruct x as [s | s | | s m e]. Qed.

Lemma ltb_zero_cases x :
  ((x <? zero)%b64 = true -> x = S754_infinity true \/ exists m e, x = S754_finite true m e)
  /\ ((zero <? x)%b64 = true
      -> x = S754_infinity false \/ exists m e, x = S754_finite false m e).
Proof.
  split; destruct x as [s | s | | s m e]; try done; destruct s; try done;
    intros _; eauto.
Qed.

Section AtExpiry.
Variables np_log np_exp norm_cdf : spec_float -> spec_float.
Variables K S vol r q : spec_float.

Hypothesis K_valid : valid_binary K = true.
Hypothesis K_pos : is_pos_finite K = true.
Hypothesis S_valid : valid_binary S = true.
Hypothesis S_pos : is_pos_finite S = true.
Hypothesis vol_pos : is_pos_finite vol = true.
Hypothesis r_finite : is_finite r = true.
Hypothesis q_finite : is_finite q = true.
Hypothesis drift_finite : is_finite (r - q + half * vol * vol) = true.
Hypothesis exp_zero : forall b, np_exp (S754_zero b) = one.

Lemma put_at_expiry_unfold :
  exists b,
    put np_log np_exp norm_cdf K S zero vol r q
    = Some (let d1 := (np_log (log_arg S K) + S754_zero b) / zero in
            let d2 := d1 - zero in
            norm_cdf (- d2) * K - norm_cdf (- d1) * S).
Proof.
  destruct (mul_zero_r (- r) (opp_finite r r_finite)) as [b1 E1].
  destruct (mul_zero_r (- q) (opp_finite q q_finite)) as [b2 E2].
  destruct (mul_zero_r _ drift_finite) as [b3 E3].
  exists b3. unfold put. rewrite ds_unfold.
  assert (HK0 : is_zero K = false) by (by destruct K).
  rewrite HK0. cbv zeta. cbn [mbind option_bind].
  rewrite E1, E2, E3, !exp_zero, !mul_one_r by assumption.
  assert (Hv : vol_T vol zero = zero) by (by destruct vol as [| | | [] ? ?]).
  by rewrite Hv.
Qed.

End AtExpiry.

End ExpiryFacts.

Module AtExpiry.
Import Binary64 Binary64Facts ExpiryFacts.
Local Open Scope b64_scope.

(** X5.  At maturity [T = 0.0], when [r - q + 0.5 * vol * vol] is finite
    (no overflow), the divisor of [d1] is zero and [put] returns the payoff:
    [K - S] when [np.log(S/K)] is below zero, [0.0] when it is above, and
    NaN when it is zero, given that [np.exp] of a zero is 1 and that
    [norm.cdf] is 1 at plus infinity and 0 at minus infinity. *)
Theorem put_at_expiry
    (np_log np_exp norm_cdf : spec_float -> spec_float)
    (K S vol r q : spec_float) :
  valid_binary K = true -> is_pos_finite K = true ->
  valid_binary S = true -> is_pos_finite S = true ->
  is_pos_finite vol = true ->
  is_finite r = true -> is_finite q = true ->
  is_finite (r - q + half * vol * vol) = true ->
  (forall b, np_exp (S754_zero b) = one) ->
  norm_cdf (S754_infinity false) = one ->
  norm_cdf (S754_infinity true) = zero ->
  let lg := np_log (log_arg S K) in
  ((lg <? zero) = true ->
   put np_log np_exp norm_cdf K S zero vol r q = Some (K - S))
  /\ ((zero <? lg) = true ->
      put np_log np_exp norm_cdf K S zero vol r q = Some zero)
  /\ (is_zero lg = true -> norm_cdf S754_nan = S754_nan ->
      put np_log np_exp norm_cdf K S zero vol r q = Some S754_nan).
Proof.
  intros HKv HK HSv HS Hvol Hr Hq Hd Hexp Hhi Hlo lg.
  destruct (put_at_expiry_unfold np_log np_exp norm_cdf K S vol r q
              HKv HK HSv Hvol Hr Hq Hd Hexp) as [b ->].
  fold lg. cbv zeta.
  split; [| split].
  - intros Hlt. apply (proj1 (ltb_zero_cases lg)) in Hlt.
    destruct Hlt as [-> | (m & e & ->)]; simpl; rewrite Hhi;
      by rewrite !mul_one_l by assumption.
  - intros Hgt. apply (proj2 (ltb_zero_cases lg)) in Hgt.
    assert (E : forall x, is_pos_finite x = true -> zero * x = zero)
      by (by intros [| | | [] ? ?]).
    destruct Hgt as [-> | (m & e & ->)]; simpl; rewrite Hlo;
      by rewrite !E by assumption.
  - intros Hz Hnan. destruct lg as [s | | |]; try done.
    destruct s, b; simpl; by rewrite Hnan.
Qed.

Lemma put_at_expiry_witness :
  let np_log := fun _ : spec_float => (- one)%b64 in
  let np_exp := fun _ : spec_float => one in
  let norm_cdf := fun x => match x with S754_infinity false => one | _ => zero end in
  valid_binary (of_int 2) = true /\ is_pos_finite (of_int 2) = true
  /\ valid_binary one = true /\ is_pos_finite one = true
  /\ is_finite (zero - zero + half * one * one) = true
  /\ (np_log (log_arg one (of_int 2)) <? zero) = true
  /\ put np_log np_exp norm_cdf (of_int 2) one zero one zero zero
     = Some (of_int 2 - one).
Proof.
  intros np_log np_exp norm_cdf.
  split; [reflexivity |]. split; [reflexivity |].
  split; [reflexivity |]. split; [reflexivity |].
  split; [reflexivity |]. split; [reflexivity |].
  apply (put_at_expiry np_log np_exp norm_cdf (of_int 2) one one zero zero);
    reflexivity.
Defined.

End AtExpiry.

Module FloatOrder.
Import Binary64.
Local Open Scope b64_scope.

Ltac order_cases :=
  repeat match goal with
         | |- context [(?a ?= ?b)%Z] => destruct (Z.compare_spec a b)
         | H : context [(?a ?= ?b)%Z] |- _ => destruct (Z.compare_spec a b)
         | |- context [Pos.compare_cont Eq ?a ?b] =>
             change (Pos.compare_cont Eq a b) with (Pos.compare a b);
             destruct (Pos.compare_spec a b)
         | H : context [Pos.compare_cont Eq ?a ?b] |- _ =>
             change (Pos.compare_cont Eq a b) with (Pos.compare a b) in H;
             destruct (Pos.compare_spec a b)
         end;
  simpl in *; try done; try lia.

Lemma ltb_irrefl x : (x <? x) = false.
Proof.
  unfold SFltb. destruct x as [[] | [] | | [] m e]; simpl; try done;
    rewrite Z.compare_refl; change (Pos.compare_cont Eq m m) with (Pos.compare m m);
    by rewrite Pos.compare_refl.
Qed.

Lemma ltb_trans x y z : (x <? y) = true -> (y <? z) = true -> (x <? z) = true.
Proof.
  unfold SFltb.
  destruct x as [[] | [] | | [] mx ex], y as [[] | [] | | [] my ey],
    z as [[] | [] | | [] mz ez]; simpl; try done; intros H1 H2; order_cases.
Qed.

(** Below, or not: two numbers, neither a NaN, are comparable. *)
Lemma ltb_leb_trans x y z :
  (x <? y) = true -> (z <? y) = false -> is_nan z = false -> (x <? z) = true.
Proof.
  unfold SFltb.
  destruct x as [[] | [] | | [] mx ex], y as [[] | [] | | [] my ey],
    z as [[] | [] | | [] mz ez]; simpl; try done; intros H1 H2 _; order_cases.
Qed.

Lemma ltb_not_nan x y : (x <? y) = true -> is_nan x = false.
Proof. by destruct x. Qed.

End FloatOrder.

Module RoundingFacts.
Import Binary64 Rounding.
Local Open Scope Z_scope.



























(** *** Products *)



End RoundingFacts.

Module FloatBounds.
Import Binary64 Rounding RoundingFacts.
Local Open Scope Z_scope.








(** *** Differences *)






End FloatBounds.

Module PricerFacts.
Import Binary64 Binary64Facts FloatBounds StepLibrary.
Local Open Scope b64_scope.

Example step_constants :
  Prim2SF 0x1.0000000000001p+0 = spot_above_one
  /\ Prim2SF 0x1.cd2b297d889bcp-54 = vol_1e_minus_16
  /\ Prim2SF 0x1.4e718d7d7625ap+664 = vol_1e_plus_200
  /\ Prim2SF 0x1.fffffffffffffp-53 = log_above_one
  /\ Prim2SF (-0x1.62e42fefa39efp-1) = log_below_one
  /\ Prim2SF 0x1.b0596885d43cap-7 = cdf_low
  /\ Prim2SF 0x1.f93e9a5de8af1p-1 = cdf_high.
Proof. vm_compute. repeat split. Qed.







(** C7, as stated, fails.  At strike 2.0, spot 1.0, maturity 1.0 and zero
    rates, the volatility 0.2 gives a price above zero and the larger
    volatility 1e200 gives 0.0: [0.5 * vol * vol] overflows, [d1] and [d2]
    are both plus infinity and both calls of [norm.cdf] return 0. *)
Lemma put_drops_at_large_volatility :
  (pct_0_2 <? vol_1e_plus_200) = true
  /\ (fun v => zero <? v)
       <$> put log_step exp_step cdf_step (of_int 2) one one pct_0_2 zero zero
     = Some true
  /\ ds log_step (of_int 2) one one vol_1e_plus_200 zero zero
     = Some (S754_infinity false, S754_infinity false)
  /\ put log_step exp_step cdf_step (of_int 2) one one vol_1e_plus_200 zero zero
     = Some zero.
Proof. vm_compute. repeat split. Qed.

(** C7, amended.  For finite strike, spot, maturity and volatility above
    zero, once [0.5 * vol * vol] overflows to plus infinity while
    [vol * sqrt(T)], [r - q], [np.log(S/K)] and the discounted strike and
    spot are finite, [d1] and [d2] are both plus infinity and [put] returns
    a zero, whatever it returns at smaller volatilities. *)
Theorem put_collapses_on_volatility_overflow
    (np_log np_exp norm_cdf : spec_float -> spec_float)
    (K S T vol r q : spec_float) :
  is_pos_finite K = true -> is_pos_finite S = true ->
  is_pos_finite T = true -> is_pos_finite vol = true ->
  half * vol * vol = S754_infinity false ->
  is_finite (vol * SF64sqrt T) = true ->
  is_finite (r - q) = true ->
  is_finite (np_log (S / K)) = true ->
  norm_cdf (S754_infinity true) = zero ->
  is_finite (K * np_exp (- r * T)) = true ->
  is_finite (S * np_exp (- q * T)) = true ->
  ds np_log K S T vol r q = Some (S754_infinity false, S754_infinity false)
  /\ exists v, put np_log np_exp norm_cdf K S T vol r q = Some v
               /\ is_zero v = true.
Proof.
  intros HK HS HT Hvol Hov HvT Hrq Hlog Hcdf Hpv Hsp.
  assert (HK0 : is_zero K = false) by (by destruct K).
  pose proof (mul_pos_finite_nonneg vol (SF64sqrt T) Hvol (sqrt_pos_finite T HT)) as HvT0.
  assert (Hds : ds np_log K S T vol r q
                = Some (S754_infinity false, S754_infinity false)).
  { unfold ds, truediv. rewrite HK0. cbn [mbind option_bind]. rewrite Hov.
    assert (E1 : r - q + S754_infinity false = S754_infinity false)
      by (by destruct (r - q)).
    assert (E2 : S754_infinity false * T = S754_infinity false)
      by (by destruct T as [| | | [] ? ?]).
    assert (E3 : np_log (S / K) + S754_infinity false = S754_infinity false)
      by (by destruct (np_log (S / K))).
    rewrite E1, E2, E3.
    by destruct (vol * SF64sqrt T) as [[] | | | [] ? ?]. }
  split; [exact Hds |].
  unfold put. rewrite Hds. cbn [mbind option_bind SFopp negb]. rewrite Hcdf.
  eexists. split; [reflexivity |].
  destruct (K * np_exp (- r * T)) as [[] | | | [] ? ?]; try done;
    by destruct (S * np_exp (- q * T)) as [[] | | | [] ? ?].
Qed.

Lemma put_collapses_on_volatility_overflow_witness :
  ds log_step (of_int 2) one one vol_1e_plus_200 zero zero
  = Some (S754_infinity false, S754_infinity false)
  /\ exists v,
       put log_step exp_step cdf_step (of_int 2) one one vol_1e_plus_200 zero zero
       = Some v /\ is_zero v = true.
Proof.
  apply (put_collapses_on_volatility_overflow log_step exp_step cdf_step
           (of_int 2) one one vol_1e_plus_200 zero zero);
    vm_compute; reflexivity.
Defined.

End PricerFacts.

Module SplitFacts.
Import Binary64 Binary64Claims Notebook.

Lemma slice_index_negative (len v : Z) :
  (v < 0)%Z -> (0 <= len + v)%Z -> slice_index len v = (len + v)%Z.
Proof.
  intros Hv Hl. unfold slice_index.
  destruct (v <? 0)%Z eqn:E; lia.
Qed.

Lemma slice_from_drop {A} (l : list A) (n : Z) :
  (0 <= n)%Z -> slice_from l n = drop (Z.to_nat n) l.
Proof.
  intros Hn. unfold slice_from. rewrite slice_index_nonneg by lia.
  destruct (Z.le_ge_cases n (Z.of_nat (length l))) as [H | H].
  - by rewrite Z.min_r.
  - rewrite Z.min_l by lia. rewrite Nat2Z.id. rewrite !drop_ge; [done | lia | lia].
Qed.

(** X6.  Fractions that sum to more than 1 make [n_train] negative, and no
    error is raised: as a slice bound the negative count is taken from the
    end of the data, so the training split is all but the last [- n_train]
    samples; the test split follows it when [n_train + n_test] is negative
    too, and is empty when that sum is not negative and [n_test <= n]. *)
Theorem split_with_negative_train_count {A B} (x : list A) (y : list B)
    (pct_test pct_validation : spec_float) (n_train n_test : Z) :
  let n := Z.of_nat (length y) in
  length x = length y ->
  int_round (of_int n * (of_int 1 - pct_test - pct_validation))%b64 = Some n_train ->
  int_round (of_int n * pct_test)%b64 = Some n_test ->
  (n_train < 0)%Z -> (0 <= n + n_train)%Z -> (0 <= n_test)%Z ->
  exists s,
    train_test_split x y pct_test pct_validation = Some s
    /\ x_train s = take (Z.to_nat (n + n_train)) x
    /\ y_train s = take (Z.to_nat (n + n_train)) y
    /\ ((n_train + n_test < 0)%Z ->
        x_test s = take (Z.to_nat n_test) (drop (Z.to_nat (n + n_train)) x)
        /\ y_test s = take (Z.to_nat n_test) (drop (Z.to_nat (n + n_train)) y))
    /\ ((0 <= n_train + n_test)%Z -> (n_test <= n)%Z ->
        x_test s = [] /\ y_test s = []).
Proof.
  intros n Hxy Htr Hte Hneg Hin Htest.
  eexists. split.
  { unfold train_test_split, split_sizes. fold n. rewrite Htr, Hte. reflexivity. }
  simpl. unfold slice. rewrite Hxy. fold n.
  rewrite (slice_index_nonneg n 0), (slice_index_negative n n_train) by lia.
  rewrite Z.min_r by lia. simpl drop. rewrite Z.sub_0_r.
  split; [done |]. split; [done |].
  split.
  - intros Hsum. rewrite (slice_index_negative n (n_train + n_test)) by lia.
    by replace (n + (n_train + n_test) - (n + n_train))%Z with n_test by lia.
  - intros Hsum Hle. rewrite (slice_index_nonneg n (n_train + n_test)) by lia.
    replace (Z.to_nat (n `min` (n_train + n_test) - (n + n_train))) with 0%nat by lia.
    by rewrite !take_0.
Qed.

Lemma split_with_negative_train_count_witness :
  let x := seq 1 8 in
  let y := seq 11 8 in
  let pct_test := Prim2SF 0.25 in
  let pct_validation := Prim2SF 1.5 in
  int_round (of_int 8 * (of_int 1 - pct_test - pct_validation))%b64 = Some (-6)%Z
  /\ int_round (of_int 8 * pct_test)%b64 = Some 2%Z
  /\ exists s,
       train_test_split x y pct_test pct_validation = Some s
       /\ x_train s = [1; 2] /\ x_test s = [3; 4].
Proof.
  intros x y pct_test pct_validation.
  assert (H1 : int_round (of_int 8 * (of_int 1 - pct_test - pct_validation))%b64
               = Some (-6)%Z) by (by vm_compute).
  assert (H2 : int_round (of_int 8 * pct_test)%b64 = Some 2%Z) by (by vm_compute).
  split; [exact H1 |]. split; [exact H2 |].
  destruct (split_with_negative_train_count x y pct_test pct_validation (-6) 2
              eq_refl H1 H2 ltac:(simpl; lia) ltac:(simpl; lia) ltac:(lia))
    as (s & Hs & Hx & _ & Ht & _).
  exists s. split; [exact Hs |]. split; [exact Hx |].
  exact (proj1 (Ht ltac:(lia))).
Defined.

(** X7.  The three sets by position.  When the counts are non-negative and
    [n_train + n_test <= ind_validation <= n], the validation set of the
    notebook is the last [n - ind_validation] samples and shares no position
    with the training and the test split: the data is the training split,
    the test split, the samples between the two indices, and the validation
    set, in this order. *)
Theorem validation_after_train_and_test {A B} (x : list A) (y : list B)
    (pct_test pct_validation : spec_float) (n_train n_test ind_validation : Z) :
  let n := Z.of_nat (length y) in
  length x = length y ->
  int_round (of_int n * (of_int 1 - pct_test - pct_validation))%b64 = Some n_train ->
  int_round (of_int n * pct_test)%b64 = Some n_test ->
  int_round (of_int n * (of_int 1 - pct_validation))%b64 = Some ind_validation ->
  (0 <= n_train)%Z -> (0 <= n_test)%Z ->
  (n_train + n_test <= ind_validation)%Z -> (ind_validation <= n)%Z ->
  exists s v,
    train_test_split x y pct_test pct_validation = Some s
    /\ validation_split x y pct_validation = Some v
    /\ x = x_train s ++ x_test s
           ++ take (Z.to_nat (ind_validation - n_train - n_test))
                (drop (Z.to_nat (n_train + n_test)) x)
           ++ v.1
    /\ y = y_train s ++ y_test s
           ++ take (Z.to_nat (ind_validation - n_train - n_test))
                (drop (Z.to_nat (n_train + n_test)) y)
           ++ v.2
    /\ Z.of_nat (length v.1) = (n - ind_validation)%Z
    /\ Z.of_nat (length v.2) = (n - ind_validation)%Z.
Proof.
  intros n Hxy Htr Hte Hval H0 H1 H2 H3.
  eexists _, _. split.
  { unfold train_test_split, split_sizes. fold n. rewrite Htr, Hte. reflexivity. }
  split.
  { unfold validation_split. fold n. rewrite Hval. reflexivity. }
  simpl. rewrite !slice_prefix, !slice_window, !slice_from_drop by lia.
  assert (Hcut : forall C (l : list C),
            l = take (Z.to_nat n_train) l
                ++ take (Z.to_nat n_test) (drop (Z.to_nat n_train) l)
                ++ take (Z.to_nat (ind_validation - n_train - n_test))
                     (drop (Z.to_nat (n_train + n_test)) l)
                ++ drop (Z.to_nat ind_validation) l).
  { intros C l.
    replace (Z.to_nat ind_validation)
      with (Z.to_nat (n_train + n_test)
            + Z.to_nat (ind_validation - n_train - n_test))%nat by lia.
    rewrite <- (drop_drop l), take_drop.
    rewrite Z2Nat.inj_add by lia. rewrite <- (drop_drop l).
    by rewrite !take_drop. }
  split; [apply Hcut |]. split; [apply Hcut |].
  rewrite !length_drop. unfold n in *. lia.
Qed.

(** Without [n_train + n_test <= ind_validation] the sets can share a
    sample: of 4 samples with pct_test = 0.375 and pct_validation = 0.25,
    both counts round 1.5 to 2, the index rounds to 3, and the fourth
    sample is in the test split and in the validation set. *)
Example validation_can_share_a_sample :
  let x := seq 1 4 in
  let y := seq 11 4 in
  x_test <$> train_test_split x y (Prim2SF 0.375) (Prim2SF 0.25) = Some [3; 4]
  /\ fst <$> validation_split x y (Prim2SF 0.25) = Some [4].
Proof. split; vm_compute; reflexivity. Qed.

Lemma validation_after_train_and_test_witness :
  let x := seq 1 10 in
  let y := seq 11 10 in
  int_round (of_int 10 * (of_int 1 - pct_0_2 - pct_0_1))%b64 = Some 7%Z
  /\ int_round (of_int 10 * pct_0_2)%b64 = Some 2%Z
  /\ int_round (of_int 10 * (of_int 1 - pct_0_1))%b64 = Some 9%Z
  /\ exists s v,
       train_test_split x y pct_0_2 pct_0_1 = Some s
       /\ validation_split x y pct_0_1 = Some v
       /\ x = x_train s ++ x_test s
              ++ take (Z.to_nat (9 - 7 - 2)) (drop (Z.to_nat (7 + 2)) x) ++ v.1
       /\ Z.of_nat (length v.1) = (10 - 9)%Z.
Proof.
  intros x y.
  assert (H1 : int_round (of_int 10 * (of_int 1 - pct_0_2 - pct_0_1))%b64 = Some 7%Z)
    by (by vm_compute).
  assert (H2 : int_round (of_int 10 * pct_0_2)%b64 = Some 2%Z) by (by vm_compute).
  assert (H3 : int_round (of_int 10 * (of_int 1 - pct_0_1))%b64 = Some 9%Z)
    by (by vm_compute).
  split; [exact H1 |]. split; [exact H2 |]. split; [exact H3 |].
  destruct (validation_after_train_and_test x y pct_0_2 pct_0_1 7 2 9
              eq_refl H1 H2 H3 ltac:(lia) ltac:(lia) ltac:(lia) ltac:(simpl; lia))
    as (s & v & Hs & Hv & Hx & _ & Hl & _).
  exists s, v. split; [exact Hs |]. split; [exact Hv |]. split; [exact Hx | exact Hl].
Defined.

End SplitFacts.

Module NotebookFacts.
Import Binary64 Trainer Notebook TrainerFacts.

Lemma range_length a b : length (range a b) = Z.to_nat (b - a).
Proof. unfold range. by rewrite length_fmap, length_seq. Qed.

Section WithTorch.
Context {vec layer adam_state rng : Type}.
Variable Linear : Z -> Z -> rng -> option (layer * rng).
Variable shape : layer -> Z * Z.
Variable linear : layer -> list vec -> list vec.
Variable relu : list vec -> list vec.

Lemma hidden_linears_length n_hidden indices : forall g lins g',
  hidden_linears Linear n_hidden indices g = Some (lins, g') ->
  length lins = length indices.
Proof.
  induction indices as [| i indices IH]; intros g lins g' H; simpl in H.
  - by inversion H.
  - destruct (Linear n_hidden n_hidden g) as [[lin g1] |]; [| done]. simpl in H.
    destruct (hidden_linears Linear n_hidden indices g1) as [[lins1 g2] |] eqn:E;
      [| done].
    simpl in H. inversion H; subst. simpl. f_equal. by eapply IH.
Qed.

Lemma hidden_linears_made n_hidden indices : forall g lins g',
  hidden_linears Linear n_hidden indices g = Some (lins, g') ->
  Forall (fun lin => exists g1 g2, Linear n_hidden n_hidden g1 = Some (lin, g2)) lins.
Proof.
  induction indices as [| i indices IH]; intros g lins g' H; simpl in H.
  - inversion H. constructor.
  - destruct (Linear n_hidden n_hidden g) as [[lin g1] |] eqn:E1; [| done].
    simpl in H.
    destruct (hidden_linears Linear n_hidden indices g1) as [[lins1 g2] |] eqn:E;
      [| done].
    simpl in H. inversion H; subst. constructor; [by eauto | by eapply IH].
Qed.

Lemma hidden_linears_total n_hidden indices :
  (forall g, is_Some (Linear n_hidden n_hidden g)) ->
  forall g, is_Some (hidden_linears Linear n_hidden indices g).
Proof.
  intros Hl. induction indices as [| i indices IH]; intros g; simpl; [by eexists |].
  destruct (Hl g) as [[lin g1] ->]. simpl.
  destruct (IH g1) as [[lins g2] ->]. simpl. by eexists.
Qed.

(** What the constructor returns, when it returns. *)
Lemma Net_init_spec (h : gmap loc (obj layer adam_state)) g
    n_feature n_hidden n_layers n_output h' g' net :
  Net_init Linear h g n_feature n_hidden n_layers n_output = Some (h', g', net) ->
  exists first hidden last g1 g2 g3,
    Linear n_feature n_hidden g = Some (first, g1)
    /\ hidden_linears Linear n_hidden (range 1 n_layers) g1 = Some (hidden, g2)
    /\ Linear n_hidden n_output g2 = Some (last, g3)
    /\ h' = <[fresh (dom h) := Linears ([first] ++ hidden ++ [last])]> h
    /\ net = {| n_hidden := n_hidden; n_layers := n_layers;
                linears := fresh (dom h) |}.
Proof.
  unfold Net_init. intros H.
  destruct (Linear n_feature n_hidden g) as [[first g1] |] eqn:E1; [| done].
  simpl in H.
  destruct (hidden_linears Linear n_hidden (range 1 n_layers) g1)
    as [[hidden g2] |] eqn:E2; [| done].
  simpl in H.
  destruct (Linear n_hidden n_output g2) as [[last g3] |] eqn:E3; [| done].
  simpl in H. inversion H; subst. by eexists _, _, _, _, _, _.
Qed.

Lemma Net_init_total (h : gmap loc (obj layer adam_state)) g
    n_feature n_hidden n_layers n_output :
  (forall i o g, (0 <= i)%Z -> (0 <= o)%Z -> is_Some (Linear i o g)) ->
  (0 <= n_feature)%Z -> (0 <= n_hidden)%Z -> (0 <= n_output)%Z ->
  is_Some (Net_init Linear h g n_feature n_hidden n_layers n_output).
Proof.
  intros Hl H1 H2 H3. unfold Net_init.
  destruct (Hl n_feature n_hidden g H1 H2) as [[first g1] ->]. simpl.
  destruct (hidden_linears_total n_hidden (range 1 n_layers)
              (fun g => Hl n_hidden n_hidden g H2 H2) g1) as [[hidden g2] ->].
  simpl.
  destruct (Hl n_hidden n_output g2 H2 H3) as [[last g3] ->]. simpl. by eexists.
Qed.

Lemma fresh_not_in (h : gmap loc (obj layer adam_state)) r :
  is_Some (h !! r) -> r <> fresh (dom h).
Proof.
  intros Hr ->. apply (is_fresh (dom h)). by apply elem_of_dom.
Qed.

Lemma Net_init_sizes (h : gmap loc (obj layer adam_state)) g
    n_feature n_hidden n_layers n_output h' g' net :
  (forall i o g lin g', Linear i o g = Some (lin, g') -> shape lin = (i, o)) ->
  Net_init Linear h g n_feature n_hidden n_layers n_output = Some (h', g', net) ->
  exists ws,
    h' !! linears net = Some (Linears ws)
    /\ shape <$> ws = layer_sizes n_feature n_hidden n_layers n_output.
Proof.
  intros Hshape H.
  apply Net_init_spec in H
    as (first & hidden & last & g1 & g2 & g3 & H1 & H2 & H3 & -> & ->).
  eexists. split; [simpl; by rewrite lookup_insert_eq |].
  unfold layer_sizes. simpl. rewrite fmap_app. simpl.
  rewrite (Hshape _ _ _ _ _ H1), (Hshape _ _ _ _ _ H3). do 2 f_equal.
  pose proof (hidden_linears_length _ _ _ _ _ H2) as Hlen.
  rewrite range_length in Hlen.
  pose proof (hidden_linears_made _ _ _ _ _ H2) as Hmade.
  rewrite <- Hlen. clear -Hmade Hshape.
  induction Hmade as [| lin lins (ga & gb & Hlin) _ IH]; [done |].
  by rewrite fmap_cons, (Hshape _ _ _ _ _ Hlin), IH.
Qed.

(** Consecutive sizes fit: what a layer puts out is what the next takes
    in. *)
Lemma layer_sizes_chain n_feature n_hidden n_layers n_output k a b :
  layer_sizes n_feature n_hidden n_layers n_output !! k = Some a ->
  layer_sizes n_feature n_hidden n_layers n_output !! S k = Some b ->
  a.2 = b.1.
Proof.
  unfold layer_sizes. generalize (Z.to_nat (n_layers - 1)). intros n.
  revert k a. simpl.
  assert (H : forall k a b c,
            ((c, n_hidden) :: replicate n (n_hidden, n_hidden)
               ++ [(n_hidden, n_output)]) !! k = Some a ->
            ((c, n_hidden) :: replicate n (n_hidden, n_hidden)
               ++ [(n_hidden, n_output)]) !! S k = Some b -> a.2 = b.1).
  { induction n as [| n IH]; intros k a' b' c Ha Hb.
    - destruct k as [| [| k]]; simpl in *; [| done | done].
      by inversion Ha; inversion Hb.
    - destruct k as [| k].
      + simpl in *. by inversion Ha; inversion Hb.
      + simpl in Ha, Hb. by apply (IH k a' b' n_hidden). }
  intros k a. apply H.
Qed.

End WithTorch.
End NotebookFacts.

Module LoopFacts.
Import Binary64 Trainer Notebook TrainerFacts FloatOrder.

(** *** The running best loss *)

Lemma best_scan_attained b r ls :
  (best_scan b r ls).1 = b \/ exists k, ls !! k = Some (best_scan b r ls).1.
Proof.
  revert b r. induction ls as [| l ls IH]; intros b r; simpl; [by left |].
  destruct (l <? b)%b64.
  - right. destruct (IH l true) as [-> | [k Hk]]; [by exists 0%nat | by exists (S k)].
  - destruct (IH b r) as [-> | [k Hk]]; [by left | right; by exists (S k)].
Qed.

Lemma best_scan_not_nan b r ls :
  is_nan b = false -> is_nan (best_scan b r ls).1 = false.
Proof.
  revert b r. induction ls as [| l ls IH]; intros b r Hb; simpl; [done |].
  destruct (l <? b)%b64 eqn:E; [| by apply IH].
  apply IH. by apply ltb_not_nan in E.
Qed.

Lemma best_scan_le_start b r ls : (b <? (best_scan b r ls).1)%b64 = false.
Proof.
  revert b r. induction ls as [| l ls IH]; intros b r; simpl; [apply ltb_irrefl |].
  destruct (l <? b)%b64 eqn:E; [| apply IH].
  destruct (b <? (best_scan l true ls).1)%b64 eqn:E'; [| done].
  by rewrite <- (IH l true), (ltb_trans _ _ _ E E').
Qed.

Lemma best_scan_lower_bound b r ls :
  is_nan b = false ->
  Forall (fun l => (l <? (best_scan b r ls).1)%b64 = false) ls.
Proof.
  revert b r. induction ls as [| l ls IH]; intros b r Hb; simpl; [constructor |].
  destruct (l <? b)%b64 eqn:E.
  - constructor; [apply best_scan_le_start |].
    apply IH. by apply ltb_not_nan in E.
  - constructor; [| by apply IH].
    destruct (l <? (best_scan b r ls).1)%b64 eqn:E'; [| done].
    by rewrite <- E, (ltb_leb_trans _ _ _ E' (best_scan_le_start b r ls) Hb).
Qed.

Section WithTorch.

Context {vec layer adam_state : Type}.
Variable linear : layer -> list vec -> list vec.
Variable relu : list vec -> list vec.
Variable mse_loss : list vec -> list vec -> spec_float.
Variable adam_init : spec_float -> adam_state.
Variable backward_step :
  list layer -> adam_state -> list vec -> list vec -> list layer * adam_state.

(** An in-place update keeps the number of layers. *)
Hypothesis shape_kept :
  forall ws o x y, length (backward_step ws o x y).1 = length ws.

Local Abbreviation predict := (Trainer.predict linear relu).
Local Abbreviation losses := (Trainer.losses linear relu mse_loss backward_step).
Local Abbreviation test_loss_at :=
  (Trainer.test_loss_at linear relu mse_loss backward_step).
Local Abbreviation train_loss_at :=
  (Notebook.train_loss_at linear relu mse_loss backward_step).
Local Abbreviation printed := (Notebook.printed linear relu mse_loss backward_step).
Local Abbreviation fit_net :=
  (Trainer.fit_net linear relu mse_loss adam_init backward_step).

Lemma trajectory_length x_ y_ k ws o :
  length (trajectory backward_step x_ y_ k ws o).1 = length ws.
Proof.
  induction k as [| k IH]; [done |]. simpl.
  destruct (trajectory backward_step x_ y_ k ws o) as [ws' o']. simpl in IH.
  by rewrite shape_kept.
Qed.

(** [fit_net] with what it leaves in the heap. *)
Lemma fit_net_frame h net n_epochs x y pct_test pct_validation s ws0 :
  train_test_split x y pct_test pct_validation = Some s ->
  h !! linears net = Some (Linears ws0) -> ws0 <> [] ->
  let opt := new_optimizer h net in
  let n := Z.to_nat n_epochs in
  let o0 := adam_init learning_rate in
  let ls := losses (x_train s) (y_train s) (x_test s) (y_test s) n ws0 o0 in
  let final := trajectory backward_step (x_train s) (y_train s) n ws0 o0 in
  exists h',
    fit_net h net n_epochs x y pct_test pct_validation
    = Some (h', ((best_scan floor_constant false ls).1,
                 if (best_scan floor_constant false ls).2
                 then new_checkpoint net opt else ∅))
    /\ h' !! linears net = Some (Linears final.1)
    /\ h' !! opt_state_ref opt = Some (AdamState final.2)
    /\ h !! opt_state_ref opt = None
    /\ (forall r, r <> linears net -> r <> opt_state_ref opt -> h' !! r = h !! r).
Proof.
  intros Hs Hw Hne opt n o0 ls final.
  destruct (initial_state_holds adam_init h net ws0 Hw) as [Hfresh Hh].
  destruct (epochs_spec linear relu mse_loss backward_step shape_kept
              (x_train s) (y_train s) (x_test s) (y_test s) net opt
              eq_refl Hfresh n 0%Z (initial_state adam_init h net) ws0 o0 Hh Hne)
    as (st & Hrun & [H1 H2] & Hfr & Hb & Hc).
  exists (heap st). unfold fit_net, Trainer.fit_net. rewrite Hs. simpl.
  fold opt n. rewrite Hrun. simpl. rewrite Hb, Hc.
  split; [done |]. split; [done |]. split; [done |].
  split; [apply not_elem_of_dom, is_fresh |].
  intros r Hr1 Hr2. rewrite Hfr by done. simpl. by rewrite lookup_insert_ne.
Qed.

(** *** What the loop prints *)

Section Loop.
Variables x_ y_ x_test_ y_test_ : list vec.
Variables (net : Net) (opt : Optimizer).
Hypothesis opt_of_net : opt_params opt = linears net.
Hypothesis opt_fresh : opt_state_ref opt <> linears net.

Lemma epoch_stdout e st st' ws o :
  holds net opt (heap st) ws o -> ws <> [] ->
  epoch linear relu mse_loss backward_step net opt x_ y_ x_test_ y_test_ e st
    = Some st' ->
  stdout st'
  = if ((e + 1) mod 100 =? 0)%Z
    then stdout st ++ [((e + 1)%Z, mse_loss (predict ws x_) y_)]
    else stdout st.
Proof.
  intros [Hw Ho] Hne.
  unfold epoch, call_net, optimizer_step, read_linears, read_adam.
  rewrite opt_of_net, Hw, Ho. simpl.
  rewrite !(forward_nonempty linear relu) by done. simpl.
  destruct (backward_step ws o x_ y_) as [ws' o']. simpl.
  destruct (_ <? _)%b64; intros H; inversion H; subst; reflexivity.
Qed.

Lemma hundreds n :
  (S n / 100)%nat
  = if ((Z.of_nat n + 1) mod 100 =? 0)%Z then S (n / 100) else (n / 100)%nat.
Proof.
  pose proof (Nat.div_mod_eq n 100). pose proof (Nat.div_mod_eq (S n) 100).
  pose proof (Nat.mod_upper_bound n 100). pose proof (Nat.mod_upper_bound (S n) 100).
  replace (Z.of_nat n + 1)%Z with (Z.of_nat (S n)) by lia.
  change 100%Z with (Z.of_nat 100). rewrite <- (Nat2Z.inj_mod (S n) 100).
  destruct (Z.eqb_spec (Z.of_nat (S n `mod` 100)) 0); lia.
Qed.

Lemma epochs_stdout n : forall st0 ws o,
  holds net opt (heap st0) ws o -> ws <> [] -> stdout st0 = [] ->
  exists st,
    epochs linear relu mse_loss backward_step net opt x_ y_ x_test_ y_test_ n 0 st0
      = Some st
    /\ stdout st = printed x_ y_ n ws o.
Proof.
  intros st0 ws o Hh Hne H0.
  induction n as [| n IH].
  - exists st0. by rewrite H0.
  - destruct IH as (st & Hrun & Hout).
    destruct (epoch_of_run linear relu mse_loss backward_step shape_kept
                x_ y_ x_test_ y_test_ net opt opt_of_net opt_fresh n st0 ws o Hh Hne)
      as (st1 & st' & H1 & H2 & H3 & Hst & _).
    rewrite Hrun in H1. inversion H1; subst st1.
    exists st'. split; [exact H3 |].
    rewrite (epoch_stdout _ _ _ _ _ Hst
               (trajectory_nonempty backward_step shape_kept x_ y_ n ws o Hne) H2),
      Hout.
    unfold Notebook.printed. rewrite (hundreds n).
    destruct (_ =? _)%Z eqn:E; [| done].
    apply Z.eqb_eq in E.
    assert (Hd : (100 * S (n / 100) = S n)%nat).
    { pose proof (Nat.div_mod_eq n 100). pose proof (Nat.mod_upper_bound n 100).
      pose proof (Nat.div_mod_eq (S n) 100).
      change 100%Z with (Z.of_nat 100) in E.
      replace (Z.of_nat n + 1)%Z with (Z.of_nat (S n)) in E by lia.
      rewrite <- (Nat2Z.inj_mod (S n) 100) in E. lia. }
    remember (n / 100)%nat as d eqn:Ed. clear Ed.
    rewrite seq_S, fmap_app. simpl. do 3 f_equal; [lia |].
    unfold Notebook.train_loss_at. do 4 f_equal. lia.
Qed.

End Loop.

(** X11.  Every hundredth epoch of the loop of [fit_net] prints one line:
    the lines are numbered 100, 200, ... up to the number of epochs run,
    and line [100 * j] shows the training loss computed in that epoch, that
    of the weights after [100 * j - 1] optimizer steps. *)
Theorem loop_prints_every_hundredth_epoch h net x_ y_ x_test_ y_test_ ws0 (n : nat) :
  h !! linears net = Some (Linears ws0) -> ws0 <> [] ->
  exists st,
    epochs linear relu mse_loss backward_step net (new_optimizer h net)
      x_ y_ x_test_ y_test_ n 0 (initial_state adam_init h net) = Some st
    /\ stdout st
       = (fun j => ((100 * Z.of_nat j)%Z,
                    train_loss_at x_ y_ (100 * j - 1) ws0 (adam_init learning_rate)))
           <$> seq 1 (n / 100)
    /\ length (stdout st) = (n / 100)%nat.
Proof.
  intros Hw Hne.
  destruct (initial_state_holds adam_init h net ws0 Hw) as [Hfresh Hh].
  destruct (epochs_stdout x_ y_ x_test_ y_test_ net (new_optimizer h net)
              eq_refl Hfresh n _ ws0 _ Hh Hne eq_refl) as (st & Hrun & Hout).
  exists st. split; [exact Hrun |]. split; [exact Hout |].
  rewrite Hout. unfold Notebook.printed. by rewrite length_fmap, length_seq.
Qed.

(** X12.  The best loss [fit_net] returns is the least of 1e-3 and the test
    losses of the epochs, a NaN loss never counting: it is no NaN, neither
    1e-3 nor any epoch's test loss is strictly below it, and it is 1e-3 or
    the test loss of some epoch. *)
Theorem best_loss_is_least h net n_epochs x y pct_test pct_validation s ws0 :
  train_test_split x y pct_test pct_validation = Some s ->
  h !! linears net = Some (Linears ws0) -> ws0 <> [] ->
  let loss_at k :=
    test_loss_at (x_train s) (y_train s) (x_test s) (y_test s)
      k ws0 (adam_init learning_rate) in
  exists h' best ckpt,
    fit_net h net n_epochs x y pct_test pct_validation = Some (h', (best, ckpt))
    /\ is_nan best = false
    /\ (floor_constant <? best)%b64 = false
    /\ (forall k, (k < Z.to_nat n_epochs)%nat -> (loss_at k <? best)%b64 = false)
    /\ (best = floor_constant
        \/ exists k, (k < Z.to_nat n_epochs)%nat /\ best = loss_at k).
Proof.
  intros Hs Hw Hne loss_at.
  destruct (fit_net_frame h net n_epochs x y pct_test pct_validation s ws0 Hs Hw Hne)
    as (h' & Hrun & _).
  eexists _, _, _. split; [exact Hrun |].
  set (ls := losses _ _ _ _ _ _ _).
  split; [by apply best_scan_not_nan |].
  split; [apply best_scan_le_start |].
  split.
  - apply (losses_Forall linear relu mse_loss backward_step
             (x_train s) (y_train s) (x_test s) (y_test s)
             (fun l => (l <? (best_scan floor_constant false ls).1)%b64 = false)).
    by apply best_scan_lower_bound.
  - destruct (best_scan_attained floor_constant false ls) as [E | [k Hk]];
      [by left | right].
    assert (Hlt : (k < Z.to_nat n_epochs)%nat).
    { apply lookup_lt_Some in Hk. unfold ls in Hk.
      by rewrite (losses_length linear relu mse_loss backward_step) in Hk. }
    exists k. split; [exact Hlt |].
    unfold ls in Hk at 1.
    rewrite (losses_lookup linear relu mse_loss backward_step) in Hk by exact Hlt.
    by inversion Hk.
Qed.

(** X13.  [fit_net] trains the network it is given, in place: when it
    returns, the network holds the parameters after exactly [n_epochs]
    optimizer steps, as many layers as before, and no other object that was
    in the heap has changed. *)
Theorem fit_net_trains_in_place h net n_epochs x y pct_test pct_validation s ws0 :
  train_test_split x y pct_test pct_validation = Some s ->
  h !! linears net = Some (Linears ws0) -> ws0 <> [] ->
  let final := trajectory backward_step (x_train s) (y_train s)
                 (Z.to_nat n_epochs) ws0 (adam_init learning_rate) in
  exists h' result,
    fit_net h net n_epochs x y pct_test pct_validation = Some (h', result)
    /\ read_linears h' (linears net) = Some final.1
    /\ length final.1 = length ws0
    /\ (forall r, r <> linears net -> is_Some (h !! r) -> h' !! r = h !! r).
Proof.
  intros Hs Hw Hne final.
  destruct (fit_net_frame h net n_epochs x y pct_test pct_validation s ws0 Hs Hw Hne)
    as (h' & Hrun & H1 & _ & Hnew & Hfr).
  eexists _, _. split; [exact Hrun |].
  split; [by unfold read_linears; rewrite H1 |].
  split; [apply trajectory_length |].
  intros r Hr Hin. apply Hfr; [exact Hr |].
  intros ->. rewrite Hnew in Hin. by destruct Hin.
Qed.


End WithTorch.
End LoopFacts.

Module CheckpointFacts.
Import Binary64 Trainer TrainerFacts LoopFacts.


Section WithTorch.

Context {vec layer adam_state : Type}.
Variable linear : layer -> list vec -> list vec.
Variable relu : list vec -> list vec.
Variable mse_loss : list vec -> list vec -> spec_float.
Variable adam_init : spec_float -> adam_state.
Variable backward_step :
  list layer -> adam_state -> list vec -> list vec -> list layer * adam_state.

(** An in-place update keeps the number of layers. *)
Hypothesis shape_kept :
  forall ws o x y, length (backward_step ws o x y).1 = length ws.


End WithTorch.
End CheckpointFacts.

Module ArchitectureFacts.
Import Binary64 Trainer Notebook TrainerFacts NotebookFacts LoopFacts.

Section WithTorch.
Context {vec layer adam_state rng : Type}.
Variable Linear : Z -> Z -> rng -> option (layer * rng).
Variable shape : layer -> Z * Z.
Variable linear : layer -> list vec -> list vec.
Variable relu : list vec -> list vec.
Variable mse_loss : list vec -> list vec -> spec_float.
Variable adam_init : spec_float -> adam_state.
Variable backward_step :
  list layer -> adam_state -> list vec -> list vec -> list layer * adam_state.

(** X9.  A network that [Net(n_feature, n_hidden, n_layers, n_output)]
    returns has [n_layers + 1] layers, and two when [n_layers] is below 1;
    they are in a new object of the heap, no object that was there is
    changed, and a forward pass never fails for want of a last layer. *)
Theorem constructed_net_layers (h : gmap loc (obj layer adam_state)) g
    n_feature n_hidden n_layers n_output h' g' net :
  Net_init Linear h g n_feature n_hidden n_layers n_output = Some (h', g', net) ->
  exists ws,
    read_linears h' (linears net) = Some ws
    /\ length ws = (Z.to_nat (n_layers - 1) + 2)%nat
    /\ (forall x, is_Some (call_net linear relu h' net x))
    /\ Trainer.n_hidden net = n_hidden /\ Trainer.n_layers net = n_layers
    /\ h !! linears net = None
    /\ (forall r, r <> linears net -> h' !! r = h !! r).
Proof.
  intros H.
  apply Net_init_spec in H
    as (first & hidden & last & g1 & g2 & g3 & H1 & H2 & H3 & -> & ->).
  apply hidden_linears_length in H2. rewrite range_length in H2.
  exists ([first] ++ hidden ++ [last]). simpl.
  split; [by unfold read_linears; rewrite lookup_insert_eq |].
  split; [rewrite length_app; simpl; lia |].
  split.
  { intros x. unfold call_net, read_linears. simpl. rewrite lookup_insert_eq. simpl.
    rewrite (forward_nonempty linear relu); [by eexists | done]. }
  split; [done |]. split; [done |].
  split; [apply not_elem_of_dom, is_fresh |].
  intros r Hr. by rewrite lookup_insert_ne.
Qed.

(** X10.  When [torch.nn.Linear(i, o)] makes a layer of sizes [(i, o)], the
    layers of a network that [Net(n_feature, n_hidden, n_layers, n_output)]
    returns have the sizes (n_feature, n_hidden), then [n_layers - 1] times
    (n_hidden, n_hidden), then (n_hidden, n_output): each layer puts out
    what the next one takes in. *)
Theorem constructed_net_sizes (h : gmap loc (obj layer adam_state)) g
    n_feature n_hidden n_layers n_output h' g' net :
  (forall i o g lin g', Linear i o g = Some (lin, g') -> shape lin = (i, o)) ->
  Net_init Linear h g n_feature n_hidden n_layers n_output = Some (h', g', net) ->
  exists ws,
    read_linears h' (linears net) = Some ws
    /\ shape <$> ws
       = [(n_feature, n_hidden)]
         ++ replicate (Z.to_nat (n_layers - 1)) (n_hidden, n_hidden)
         ++ [(n_hidden, n_output)]
    /\ (forall k a b, ws !! k = Some a -> ws !! S k = Some b ->
          (shape a).2 = (shape b).1).
Proof.
  intros Hshape H.
  destruct (Net_init_sizes Linear shape h g _ _ _ _ h' g' net Hshape H)
    as (ws & Hw & Hsz).
  exists ws. split; [by unfold read_linears; rewrite Hw |].
  split; [exact Hsz |].
  intros k a b Ha Hb.
  apply (layer_sizes_chain n_feature n_hidden n_layers n_output k);
    rewrite <- Hsz, list_lookup_fmap; [by rewrite Ha | by rewrite Hb].
Qed.

(** An in-place update keeps the sizes of the layers. *)
Hypothesis sizes_kept :
  forall ws o x y, shape <$> (backward_step ws o x y).1 = shape <$> ws.

Lemma sizes_kept_length ws o x y : length (backward_step ws o x y).1 = length ws.
Proof. by rewrite <- (length_fmap shape), sizes_kept, length_fmap. Qed.

Lemma trajectory_sizes x_ y_ k ws o :
  shape <$> (trajectory backward_step x_ y_ k ws o).1 = shape <$> ws.
Proof.
  induction k as [| k IH]; [done |]. simpl.
  destruct (trajectory backward_step x_ y_ k ws o) as [ws' o']. simpl in IH.
  by rewrite sizes_kept.
Qed.

(** X16.  The reload cell after [fit_net], for a network built as
    [Net(5, n_hidden, n_layers, 1)]: on the empty checkpoint the cell raises
    (the key ["n_hidden"] is missing); on any other it returns a network of
    its own, with the trained network's [n_hidden] and [n_layers], whose
    parameters are those the trained network holds when [fit_net] returns,
    that is after the last of the [n_epochs] steps. *)
Theorem reload_after_fit_net h g net n_epochs x y pct_test pct_validation s ws0 :
  (forall i o g, (0 <= i)%Z -> (0 <= o)%Z -> is_Some (Linear i o g)) ->
  (forall i o g lin g', Linear i o g = Some (lin, g') -> shape lin = (i, o)) ->
  (0 <= Trainer.n_hidden net)%Z ->
  train_test_split x y pct_test pct_validation = Some s ->
  h !! linears net = Some (Linears ws0) ->
  shape <$> ws0 = layer_sizes 5 (Trainer.n_hidden net) (Trainer.n_layers net) 1 ->
  let final := trajectory backward_step (x_train s) (y_train s)
                 (Z.to_nat n_epochs) ws0 (adam_init learning_rate) in
  exists h' best ckpt,
    fit_net linear relu mse_loss adam_init backward_step
      h net n_epochs x y pct_test pct_validation = Some (h', (best, ckpt))
    /\ (ckpt = ∅ -> reload Linear shape h' g ckpt = None)
    /\ (ckpt <> ∅ ->
        exists h'' g' model,
          reload Linear shape h' g ckpt = Some (h'', g', model)
          /\ Trainer.n_hidden model = Trainer.n_hidden net
          /\ Trainer.n_layers model = Trainer.n_layers net
          /\ linears model <> linears net
          /\ read_linears h'' (linears model) = Some final.1
          /\ read_linears h'' (linears net) = Some final.1).
Proof.
  intros Htot Hshape Hnh Hs Hw Hsz final.
  assert (Hne : ws0 <> []) by (by intros ->).
  destruct (fit_net_frame linear relu mse_loss adam_init backward_step
              sizes_kept_length h net n_epochs x y pct_test pct_validation s ws0
              Hs Hw Hne) as (h' & Hrun & Hw' & _).
  fold final in Hw'.
  eexists _, _, _. split; [exact Hrun |].
  destruct (best_scan _ _ _).2; [| done].
  split; [intros E; by apply new_checkpoint_nonempty in E |]. intros _.
  destruct (Net_init_total Linear h' g 5 (Trainer.n_hidden net) (Trainer.n_layers net) 1
              Htot ltac:(lia) Hnh ltac:(lia)) as [[[h1 g1] model] Hinit].
  destruct (Net_init_sizes Linear shape h' g _ _ _ _ h1 g1 model Hshape Hinit)
    as (own & Hown & Hownsz).
  destruct (Net_init_spec Linear _ _ _ _ _ _ _ _ _ Hinit)
    as (first & hidden & last & ga & gb & gc & _ & _ & _ & Hh1 & Hmodel).
  assert (Hdiff : linears model <> linears net).
  { rewrite Hmodel. simpl. intros E. apply (is_fresh (dom h')).
    rewrite E. by apply elem_of_dom. }
  assert (Hnet1 : h1 !! linears net = Some (Linears final.1)).
  { rewrite Hh1, lookup_insert_ne; [exact Hw' |]. by rewrite Hmodel in Hdiff. }
  exists (<[linears model := Linears final.1]> h1), g1, model.
  split.
  - unfold reload.
    change (new_checkpoint net (new_optimizer h net) !! "n_hidden")
      with (Some (VInt (Trainer.n_hidden net))).
    change (new_checkpoint net (new_optimizer h net) !! "n_layers")
      with (Some (VInt (Trainer.n_layers net))).
    cbn [mbind option_bind as_int]. rewrite Hinit. cbn [mbind option_bind].
    rewrite (proj1 (new_checkpoint_loads h1 net (new_optimizer h net))).
    unfold read_linears. rewrite Hnet1, Hown. cbn [mbind option_bind].
    rewrite bool_decide_eq_true_2; [done |].
    unfold final. by rewrite Hownsz, trajectory_sizes.
  - split; [by rewrite Hmodel |]. split; [by rewrite Hmodel |].
    split; [exact Hdiff |]. unfold read_linears.
    split; [by rewrite lookup_insert_eq |].
    by rewrite lookup_insert_ne, Hnet1.
Qed.

End WithTorch.
End ArchitectureFacts.

Module HeldOutFacts.
Import Binary64 Binary64Claims Trainer TrainerFacts Notebook.

Lemma split_of_prefix {A B} (x x' : list A) (y y' : list B)
    (pct_test pct_validation : spec_float) (n_train n_test : Z) :
  let n := Z.of_nat (length y) in
  length y' = length y ->
  int_round (of_int n * (of_int 1 - pct_test - pct_validation))%b64 = Some n_train ->
  int_round (of_int n * pct_test)%b64 = Some n_test ->
  (0 <= n_train)%Z -> (0 <= n_test)%Z ->
  take (Z.to_nat (n_train + n_test)) x' = take (Z.to_nat (n_train + n_test)) x ->
  take (Z.to_nat (n_train + n_test)) y' = take (Z.to_nat (n_train + n_test)) y ->
  train_test_split x' y' pct_test pct_validation
  = train_test_split x y pct_test pct_validation.
Proof.
  intros n Hlen Htr Hte H0 H1 Hx Hy.
  unfold train_test_split, split_sizes. rewrite Hlen. fold n. rewrite Htr, Hte.
  simpl. rewrite !slice_prefix, !slice_window by lia.
  assert (Hcut : forall C (l l' : list C),
            take (Z.to_nat (n_train + n_test)) l' = take (Z.to_nat (n_train + n_test)) l ->
            take (Z.to_nat n_train) l' = take (Z.to_nat n_train) l
            /\ take (Z.to_nat n_test) (drop (Z.to_nat n_train) l')
               = take (Z.to_nat n_test) (drop (Z.to_nat n_train) l)).
  { intros C l l' E. rewrite Z2Nat.inj_add in E by lia. split.
    - apply (f_equal (take (Z.to_nat n_train))) in E.
      rewrite !take_take in E.
      by rewrite !Nat.min_l in E by lia.
    - rewrite !take_drop_commute. by rewrite E. }
  destruct (Hcut _ _ _ Hx) as [-> ->]. by destruct (Hcut _ _ _ Hy) as [-> ->].
Qed.

Section WithTorch.
Context {vec layer adam_state : Type}.
Variable linear : layer -> list vec -> list vec.
Variable relu : list vec -> list vec.
Variable mse_loss : list vec -> list vec -> spec_float.
Variable adam_init : spec_float -> adam_state.
Variable backward_step :
  list layer -> adam_state -> list vec -> list vec -> list layer * adam_state.

(** X8.  [fit_net] reads only the first [n_train + n_test] samples: with
    non-negative counts, two data sets of the same length that agree on
    these samples give the same result, error or value, whatever the
    samples after them are. *)
Theorem fit_net_ignores_later_samples h net n_epochs (x x' y y' : list vec)
    pct_test pct_validation n_train n_test :
  let n := Z.of_nat (length y) in
  length y' = length y ->
  int_round (of_int n * (of_int 1 - pct_test - pct_validation))%b64 = Some n_train ->
  int_round (of_int n * pct_test)%b64 = Some n_test ->
  (0 <= n_train)%Z -> (0 <= n_test)%Z ->
  take (Z.to_nat (n_train + n_test)) x' = take (Z.to_nat (n_train + n_test)) x ->
  take (Z.to_nat (n_train + n_test)) y' = take (Z.to_nat (n_train + n_test)) y ->
  fit_net linear relu mse_loss adam_init backward_step
    h net n_epochs x' y' pct_test pct_validation
  = fit_net linear relu mse_loss adam_init backward_step
      h net n_epochs x y pct_test pct_validation.
Proof.
  intros n Hlen Htr Hte H0 H1 Hx Hy. unfold fit_net.
  by rewrite (split_of_prefix x x' y y' pct_test pct_validation n_train n_test).
Qed.

End WithTorch.
End HeldOutFacts.

Module TinyNetRuns.
Import Binary64 Trainer TrainerFacts TinyNet TinyNetFacts Notebook LoopFacts.

Lemma loop_prints_every_hundredth_epoch_witness :
  h0 !! linears net = Some (Linears [(one, zero); (one, zero)])
  /\ exists st,
       epochs linear relu mse_loss backward_step net (new_optimizer h0 net)
         [one] [two] [three] [three] 250 0 (initial_state adam_init h0 net) = Some st
       /\ length (stdout st) = 2%nat.
Proof.
  split; [reflexivity |].
  destruct (loop_prints_every_hundredth_epoch linear relu mse_loss adam_init
              backward_step tiny_shape_kept h0 net [one] [two] [three] [three]
              [(one, zero); (one, zero)] 250 eq_refl ltac:(discriminate))
    as (st & Hrun & _ & Hlen).
  exists st. split; [exact Hrun | exact Hlen].
Defined.

Lemma best_loss_is_least_witness :
  train_test_split x y half zero = Some (Splits [one] [three] [two] [three])
  /\ h0 !! linears net = Some (Linears [(one, zero); (one, zero)])
  /\ exists h' best ckpt,
       run 2 = Some (h', (best, ckpt))
       /\ is_nan best = false
       /\ (floor_constant <? best)%b64 = false
       /\ (forall k, (k < Z.to_nat 2)%nat ->
             (test_loss_at linear relu mse_loss backward_step
                [one] [two] [three] [three] k [(one, zero); (one, zero)]
                (adam_init learning_rate) <? best)%b64 = false).
Proof.
  split; [exact tiny_split |]. split; [reflexivity |].
  destruct (best_loss_is_least linear relu mse_loss adam_init backward_step
              tiny_shape_kept h0 net 2 x y half zero
              (Splits [one] [three] [two] [three]) [(one, zero); (one, zero)]
              tiny_split eq_refl ltac:(discriminate))
    as (h' & best & ckpt & Hrun & H1 & H2 & H3 & _).
  exists h', best, ckpt.
  split; [exact Hrun |]. split; [exact H1 |]. split; [exact H2 | exact H3].
Defined.

Lemma fit_net_trains_in_place_witness :
  train_test_split x y half zero = Some (Splits [one] [three] [two] [three])
  /\ h0_elsewhere !! linears net_elsewhere = Some (Linears [(one, zero); (one, zero)])
  /\ exists h' result,
       fit_net linear relu mse_loss adam_init backward_step
         h0_elsewhere net_elsewhere 2 x y half zero = Some (h', result)
       /\ read_linears h' (linears net_elsewhere)
          = Some (trajectory backward_step [one] [two] (Z.to_nat 2)
                    [(one, zero); (one, zero)] (adam_init learning_rate)).1
       /\ h' !! 1%positive = h0_elsewhere !! 1%positive.
Proof.
  assert (He : h0_elsewhere !! linears net_elsewhere
               = Some (Linears [(one, zero); (one, zero)]))
    by (vm_compute; reflexivity).
  assert (H1 : is_Some (h0_elsewhere !! 1%positive))
    by (vm_compute; by eexists).
  split; [exact tiny_split |]. split; [exact He |].
  destruct (fit_net_trains_in_place linear relu mse_loss adam_init backward_step
              tiny_shape_kept h0_elsewhere net_elsewhere 2 x y half zero
              (Splits [one] [three] [two] [three]) [(one, zero); (one, zero)]
              tiny_split He ltac:(discriminate))
    as (h' & result & Hrun & Hfinal & _ & Hfr).
  exists h', result. split; [exact Hrun |]. split; [exact Hfinal |].
  apply Hfr; [discriminate | exact H1].
Defined.


Lemma returned_checkpoint_reads_final_witness :
  train_test_split x y half zero = Some (Splits [one] [three] [two] [three])
  /\ h0 !! linears net = Some (Linears [(one, zero); (one, zero)])
  /\ exists h' best ckpt,
       run 2 = Some (h', (best, ckpt))
       /\ (ckpt <> ∅ ->
           load_state_dict h' ckpt
           = Some (trajectory backward_step [one] [two] (Z.to_nat 2)
                     [(one, zero); (one, zero)] (adam_init learning_rate)).1).
Proof.
  split; [exact tiny_split |]. split; [reflexivity |].
  destruct (returned_checkpoint_reads_final linear relu mse_loss adam_init
              backward_step tiny_shape_kept h0 net 2 x y half zero
              (Splits [one] [three] [two] [three]) [(one, zero); (one, zero)]
              tiny_split eq_refl ltac:(discriminate))
    as (h' & best & ckpt & Hrun & Hload).
  exists h', best, ckpt. split; [exact Hrun |].
  intros Hne. exact (proj1 (Hload Hne)).
Defined.

End TinyNetRuns.

Module CheckpointRuns.
Import Binary64 Trainer TrainerFacts TinyNet TinyNetFacts CheckpointFacts.



End CheckpointRuns.

Module WidthFacts.
Import Binary64 Trainer Notebook TrainerFacts NotebookFacts.

Section WithTorch.
Context {vec layer adam_state rng : Type}.
Variable Linear : Z -> Z -> rng -> option (layer * rng).
Variable shape : layer -> Z * Z.
Variable width : vec -> Z.
Variable linear : layer -> list vec -> list vec.
Variable relu : list vec -> list vec.

(** A batch of rows of one width. *)
Local Abbreviation rows_of w x := (Forall (fun v => width v = w) x).

Hypothesis Linear_shape :
  forall i o g lin g', Linear i o g = Some (lin, g') -> shape lin = (i, o).
Hypothesis linear_width :
  forall lin x, (0 <= (shape lin).2)%Z -> rows_of (shape lin).1 x ->
    length (linear lin x) = length x /\ rows_of (shape lin).2 (linear lin x).
Hypothesis relu_width :
  forall w x, rows_of w x -> length (relu x) = length x /\ rows_of w (relu x).

Lemma hidden_pass n_hidden hidden : forall x,
  (0 <= n_hidden)%Z ->
  Forall (fun lin => shape lin = (n_hidden, n_hidden)) hidden ->
  rows_of n_hidden x ->
  length (foldl (fun x lin => relu (linear lin x)) x hidden) = length x
  /\ rows_of n_hidden (foldl (fun x lin => relu (linear lin x)) x hidden).
Proof.
  intros x Hn Hh. revert x.
  induction Hh as [| lin hidden Hlin _ IH]; intros x Hx; [done |].
  simpl.
  destruct (linear_width lin x) as [L1 W1]; [by rewrite Hlin | by rewrite Hlin |].
  rewrite Hlin in W1. simpl in W1.
  destruct (relu_width _ _ W1) as [L2 W2].
  destruct (IH _ W2) as [L3 W3].
  split; [by rewrite L3, L2, L1 | exact W3].
Qed.

(** X17.  The sizes of a constructed network fit its forward pass: given
    that a layer of sizes [(i, o)] turns rows of width [i] into as many rows
    of width [o] and that [F.relu] keeps the rows' number and width, calling
    a network that [Net(n_feature, n_hidden, n_layers, n_output)] returned
    on a batch of rows of width [n_feature] gives as many rows of width
    [n_output]. *)
Theorem constructed_net_forward_widths (h : gmap loc (obj layer adam_state)) g
    n_feature n_hidden n_layers n_output h' g' net x :
  (0 <= n_hidden)%Z -> (0 <= n_output)%Z ->
  Net_init Linear h g n_feature n_hidden n_layers n_output = Some (h', g', net) ->
  rows_of n_feature x ->
  exists out,
    call_net linear relu h' net x = Some out
    /\ length out = length x
    /\ rows_of n_output out.
Proof.
  intros Hnh Hno H Hx.
  apply Net_init_spec in H
    as (first & hidden & last & g1 & g2 & g3 & H1 & H2 & H3 & -> & ->).
  apply Linear_shape in H1, H3.
  assert (Hh : Forall (fun lin => shape lin = (n_hidden, n_hidden)) hidden).
  { eapply Forall_impl; [exact (hidden_linears_made _ _ _ _ _ _ H2) |].
    intros lin (ga & gb & E). by apply Linear_shape in E. }
  unfold call_net, read_linears. simpl. rewrite lookup_insert_eq. simpl.
  unfold forward.
  change (first :: hidden ++ [last]) with ((first :: hidden) ++ [last]).
  rewrite removelast_last, last_snoc. simpl.
  destruct (linear_width first x) as [L1 W1]; [by rewrite H1 | by rewrite H1 |].
  rewrite H1 in W1. simpl in W1.
  destruct (relu_width _ _ W1) as [L2 W2].
  destruct (hidden_pass n_hidden hidden _ Hnh Hh W2) as [L3 W3].
  destruct (linear_width last
              (foldl (fun x lin => relu (linear lin x)) (relu (linear first x)) hidden))
    as [L4 W4]; [by rewrite H3 | by rewrite H3 |].
  rewrite H3 in W4. simpl in W4.
  eexists. split; [reflexivity |].
  split; [by rewrite L4, L3, L2, L1 | exact W4].
Qed.

End WithTorch.
End WidthFacts.

Module ZeroNetRuns.
Import Binary64 Trainer TrainerFacts Notebook NotebookFacts ArchitectureFacts.
Import WidthFacts ZeroNet.

Lemma zero_sizes i o g lin g' :
  zero_Linear i o g = Some (lin, g') -> sizes lin = (i, o).
Proof. intros H. by inversion H. Qed.

Lemma zero_total i o g : (0 <= i)%Z -> (0 <= o)%Z -> is_Some (zero_Linear i o g).
Proof. by eexists. Qed.

Lemma zero_sizes_kept (ws : list zero_layer) (o : unit) (x y : list row) :
  sizes <$> (zero_step ws o x y).1 = sizes <$> ws.
Proof. done. Qed.

Lemma zero_linear_width lin (x : list row) :
  (0 <= (sizes lin).2)%Z -> Forall (fun v => width v = (sizes lin).1) x ->
  length (zero_linear lin x) = length x
  /\ Forall (fun v => width v = (sizes lin).2) (zero_linear lin x).
Proof.
  intros Ho _. unfold zero_linear. split; [by rewrite length_fmap |].
  apply Forall_fmap, Forall_forall. intros v _. simpl.
  unfold width, sizes in *. rewrite length_replicate. lia.
Qed.

Lemma relu_rows_width w (x : list row) :
  Forall (fun v => width v = w) x ->
  length (relu_rows x) = length x /\ Forall (fun v => width v = w) (relu_rows x).
Proof.
  intros Hx. unfold relu_rows. split; [by rewrite length_map |].
  apply Forall_fmap. eapply Forall_impl; [exact Hx |].
  intros v Hv. simpl. unfold width in *. by rewrite length_map.
Qed.

Lemma constructed_net_layers_witness :
  exists h' net ws,
    built = Some (h', tt, net)
    /\ read_linears h' (linears net) = Some ws
    /\ length ws = (Z.to_nat (2 - 1) + 2)%nat
    /\ (forall x, is_Some (call_net zero_linear relu_rows h' net x)).
Proof.
  destruct built as [[[h' g'] net] |] eqn:E; [| by vm_compute in E].
  destruct g'.
  destruct (constructed_net_layers zero_Linear zero_linear relu_rows
              ∅ tt 5 3 2 1 h' tt net E)
    as (ws & H1 & H2 & H3 & _).
  by exists h', net, ws.
Defined.

Lemma constructed_net_sizes_witness :
  (forall i o g lin g', zero_Linear i o g = Some (lin, g') -> sizes lin = (i, o))
  /\ exists h' net ws,
       built = Some (h', tt, net)
       /\ read_linears h' (linears net) = Some ws
       /\ sizes <$> ws = [(5, 3); (3, 3); (3, 1)]%Z.
Proof.
  split; [exact zero_sizes |].
  destruct built as [[[h' g'] net] |] eqn:E; [| by vm_compute in E].
  destruct g'.
  destruct (constructed_net_sizes zero_Linear sizes ∅ tt 5 3 2 1 h' tt net
              zero_sizes E)
    as (ws & H1 & H2 & _).
  by exists h', net, ws.
Defined.

Lemma constructed_net_forward_widths_witness :
  Forall (fun v => width v = 5%Z) samples
  /\ exists h' net out,
       built = Some (h', tt, net)
       /\ call_net zero_linear relu_rows h' net samples = Some out
       /\ length out = length samples
       /\ Forall (fun v => width v = 1%Z) out.
Proof.
  assert (Hx : Forall (fun v => width v = 5%Z) samples)
    by (repeat constructor).
  split; [exact Hx |].
  destruct built as [[[h' g'] net] |] eqn:E; [| by vm_compute in E].
  destruct g'.
  destruct (constructed_net_forward_widths zero_Linear sizes width zero_linear
              relu_rows zero_sizes zero_linear_width relu_rows_width
              ∅ tt 5 3 2 1 h' tt net samples ltac:(lia) ltac:(lia) E Hx)
    as (out & H1 & H2 & H3).
  by exists h', net, out.
Defined.

Lemma reload_after_fit_net_witness :
  exists h net ws0,
    built = Some (h, tt, net)
    /\ h !! linears net = Some (Linears ws0)
    /\ sizes <$> ws0 = layer_sizes 5 (n_hidden net) (n_layers net) 1
    /\ train_test_split samples targets half zero
       = Some (Splits [replicate 5 one] [replicate 5 TinyNet.three] [[zero]] [[zero]])
    /\ exists h' best ckpt,
         fit_net zero_linear relu_rows mse_rows no_state zero_step
           h net 2 samples targets half zero = Some (h', (best, ckpt))
         /\ (ckpt <> ∅ ->
             exists h'' g' model,
               reload zero_Linear sizes h' tt ckpt = Some (h'', g', model)
               /\ linears model <> linears net
               /\ read_linears h'' (linears model) = Some ws0).
Proof.
  destruct built as [[[h g'] net] |] eqn:E; [| by vm_compute in E].
  destruct g'.
  destruct (constructed_net_sizes zero_Linear sizes ∅ tt 5 3 2 1 h tt net
              zero_sizes E)
    as (ws0 & H1 & H2 & _).
  assert (Hnet : n_hidden net = 3%Z /\ n_layers net = 2%Z).
  { unfold built, Net_init in E. simpl in E. by inversion E. }
  destruct Hnet as [Hnh Hnl].
  assert (Hw : h !! linears net = Some (Linears ws0)).
  { unfold read_linears in H1.
    destruct (h !! linears net) as [[ws | o] |]; [| done | done].
    by inversion H1. }
  assert (Hs : train_test_split samples targets half zero
               = Some (Splits [replicate 5 one] [replicate 5 TinyNet.three]
                         [[zero]] [[zero]]))
    by (vm_compute; reflexivity).
  exists h, net, ws0. split; [done |]. split; [exact Hw |].
  assert (Hsz : sizes <$> ws0 = layer_sizes 5 (n_hidden net) (n_layers net) 1)
    by (by rewrite Hnh, Hnl).
  split; [exact Hsz |]. split; [exact Hs |].
  destruct (reload_after_fit_net zero_Linear sizes zero_linear relu_rows
              mse_rows no_state zero_step zero_sizes_kept
              h tt net 2 samples targets half zero
              (Splits [replicate 5 one] [replicate 5 TinyNet.three] [[zero]] [[zero]])
              ws0 zero_total zero_sizes ltac:(lia) Hs Hw Hsz)
    as (h' & best & ckpt & Hrun & _ & Hre).
  exists h', best, ckpt. split; [exact Hrun |].
  intros Hne. destruct (Hre Hne) as (h'' & g' & model & R1 & _ & _ & R2 & R3 & _).
  exists h'', g', model. split; [exact R1 |]. split; [exact R2 | exact R3].
Defined.

(** In the run of [fit_net] on that network the test loss is 0.0 at once,
    so a checkpoint is recorded. *)
Example zero_net_run_records :
  (built ≫= fun b =>
     (fun r => (r.2.1, r.2.2 !! "n_hidden"))
       <$> fit_net zero_linear relu_rows mse_rows no_state zero_step
             b.1.1 b.2 2 samples targets half zero)
  = Some (zero, Some (VInt 3)).
Proof. vm_compute. reflexivity. Qed.

End ZeroNetRuns.

Module HeldOutRuns.
Import Binary64 Trainer TinyNet HeldOutFacts.

Lemma fit_net_ignores_later_samples_witness :
  let quarter := Prim2SF 0.25 in
  let x := [one; three; one; one] in
  let y := [two; three; one; one] in
  let x' := [one; three; two; three] in
  let y' := [two; three; three; two] in
  int_round (of_int 4 * (of_int 1 - quarter - half))%b64 = Some 1%Z
  /\ int_round (of_int 4 * quarter)%b64 = Some 1%Z
  /\ fit_net linear relu mse_loss adam_init backward_step h0 net 2 x' y' quarter half
     = fit_net linear relu mse_loss adam_init backward_step h0 net 2 x y quarter half.
Proof.
  intros quarter x y x' y'.
  assert (H1 : int_round (of_int 4 * (of_int 1 - quarter - half))%b64 = Some 1%Z)
    by (by vm_compute).
  assert (H2 : int_round (of_int 4 * quarter)%b64 = Some 1%Z) by (by vm_compute).
  split; [exact H1 |]. split; [exact H2 |].
  apply (fit_net_ignores_later_samples linear relu mse_loss adam_init backward_step
           h0 net 2 x x' y y' quarter half 1 1 eq_refl H1 H2);
    [lia | lia | reflexivity | reflexivity].
Defined.

End HeldOutRuns.
